(** * Session credentials and dual-ledger view of the grid game client

    A shallow embedding of the client's credential layer
    ([app/src/lib/sessionKey.ts], [app/src/hooks/useSessionKey.ts]) and of
    the dual-ledger player view ([app/src/components/GameBoard.tsx],
    [app/src/lib/anchor.ts]).  The hook is taken in its revision with the
    live delegation read ([getCurrentDelegationStatus]).

    Asynchronous functions are written in a state-and-exception monad:
    every [await] is a sequencing point, a rejected promise is a thrown
    error.  Everything outside the client (the wallet's signer, the two
    ledgers) answers through oracles that see the history of interactions
    so far, so that two reads of the same account may differ.  Console
    output is not modelled. *)

From Stdlib Require Import ZArith Lia List String Ascii.
From Stdlib.Strings Require Import Byte.
From Stdlib Require QArith_base.
From stdpp Require Import base option gmap strings list.

Open Scope string_scope.
Open Scope list_scope.

(** ** Bytes, errors, results *)

Abbreviation bytes := (list byte).

#[global] Instance byte_eq_decision : EqDecision byte := byte_eq_dec.

(** A thrown JavaScript [Error], kept by its message. *)
Record JsError := Error { message : string }.

Inductive result (A : Type) : Type :=
| Ok (a : A)
| Throw (e : JsError).
Arguments Ok {A} a.
Arguments Throw {A} e.

Definition is_ok {A} (r : result A) : bool :=
  match r with Ok _ => true | Throw _ => false end.

(** ** The part of [@solana/web3.js] the client uses *)

Module Web3.

(** [PublicKey]: a wrapper around the key's bytes. *)
Record PublicKey := mkPublicKey { toBuffer : bytes }.

#[global] Instance PublicKey_eq_dec : EqDecision PublicKey.
Proof. solve_decision. Defined.

(** [Keypair]: [secretKey] is the 64-byte expanded secret
    (seed followed by public key). *)
Record Keypair := mkKeypair { publicKey : PublicKey; secretKey : bytes }.

#[global] Instance Keypair_eq_dec : EqDecision Keypair.
Proof. solve_decision. Defined.

Record TransactionInstruction := mkInstruction {
  keys : list PublicKey;
  programId : PublicKey;
  data : bytes
}.

(** Legacy [Transaction]: a mutable object; [signatures] pairs every
    required signer with its signature, [None] while missing. *)
Record Transaction := mkTransaction {
  feePayer : option PublicKey;
  recentBlockhash : option string;
  instructions : list TransactionInstruction;
  signatures : list (PublicKey * option bytes)
}.

Definition newTransaction : Transaction :=
  mkTransaction None None [] [].

(** [Transaction.add] *)
Definition add (tx : Transaction) (ix : TransactionInstruction) : Transaction :=
  mkTransaction (feePayer tx) (recentBlockhash tx) (instructions tx ++ [ix]) (signatures tx).

Definition set_recentBlockhash (h : string) (tx : Transaction) : Transaction :=
  mkTransaction (feePayer tx) (Some h) (instructions tx) (signatures tx).

Definition set_feePayer (pk : PublicKey) (tx : Transaction) : Transaction :=
  mkTransaction (Some pk) (recentBlockhash tx) (instructions tx) (signatures tx).

Definition set_signatures (s : list (PublicKey * option bytes)) (tx : Transaction) : Transaction :=
  mkTransaction (feePayer tx) (recentBlockhash tx) (instructions tx) s.

(** The [signature] getter: the first (fee payer's) signature, or null. *)
Definition signature (tx : Transaction) : option bytes :=
  match signatures tx with
  | [] => None
  | (_, s) :: _ => s
  end.

(** Versioned transactions carry a pre-built message; the fee payer is
    its first static account key.  [v_signatures] is a JavaScript array:
    [None] stands for a hole. *)
Record VersionedMessage := mkVersionedMessage {
  numRequiredSignatures : nat;
  staticAccountKeys : list PublicKey;
  v_recentBlockhash : string;
  compiledInstructions : bytes
}.

Record VersionedTransaction := mkVersionedTransaction {
  v_message : VersionedMessage;
  v_signatures : list (option bytes)
}.

Definition v_feePayer (tx : VersionedTransaction) : option PublicKey :=
  head (staticAccountKeys (v_message tx)).

(** [T extends Transaction | VersionedTransaction], told apart by
    [instanceof]. *)
Inductive AnyTransaction :=
| Legacy (tx : Transaction)
| Versioned (tx : VersionedTransaction).

(** [array[i] = v] on a JavaScript array: in range it overwrites, out of
    range the array grows and the gap is left as holes. *)
Definition js_array_set {A} (i : nat) (v : A) (l : list (option A)) : list (option A) :=
  if decide (i < length l)
  then <[i := Some v]> l
  else l ++ replicate (i - length l) None ++ [Some v].

(** [findIndex (k => k.equals pk)] *)
Fixpoint findIndex (pk : PublicKey) (l : list PublicKey) : option nat :=
  match l with
  | [] => None
  | k :: l' => if decide (k = pk) then Some 0 else S <$> findIndex pk l'
  end.

End Web3.
Export Web3.

(** ** Platform functions

    Hashing, the Ed25519 primitives, base-58 rendering of keys, message
    compilation and PDA derivation come from libraries and from the
    program's IDL; the client's code is parametric in them. *)

Class Platform := {
  (** [sha256] of [@noble/hashes] *)
  sha256 : bytes -> bytes;
  (** public key of a 32-byte seed *)
  ed25519_getPublicKey : bytes -> bytes;
  (** [sign message secretKey], a detached signature *)
  ed25519_sign : bytes -> bytes -> bytes;
  (** [PublicKey.toString] / [toBase58] *)
  toBase58 : PublicKey -> string;
  (** [Uint8Array.from (JSON.parse s)]: throws on malformed text *)
  bytes_of_JSON : string -> result bytes;
  (** [Transaction.compileMessage]: the required signers in order and the
      serialized message, or a thrown error (no blockhash, no fee payer) *)
  compileMessage : Transaction -> result (list PublicKey * bytes);
  (** [VersionedMessage.serialize] *)
  serializeMessage : VersionedMessage -> bytes;
  (** [PROGRAM_ID = new PublicKey (idl.address)] *)
  PROGRAM_ID : PublicKey;
  (** [PublicKey.findProgramAddressSync (seeds, program)] *)
  findProgramAddressSync : list bytes -> PublicKey -> PublicKey;
  (** the SPL memo program, [new PublicKey ("MemoSq4g...")] *)
  MEMO_PROGRAM_ID : PublicKey;
  (** [window.location.origin], absent outside a browser *)
  window_origin : option string
}.

(** ** Library operations built on the platform *)

Section Library.
Context `{P : Platform}.

(** [Keypair.fromSeed]: the Ed25519 key derivation rejects a seed that is
    not 32 bytes long. *)
Definition Keypair_fromSeed (seed : bytes) : result Keypair :=
  if decide (length seed = 32)
  then let pub := ed25519_getPublicKey seed in
       Ok (mkKeypair (mkPublicKey pub) (seed ++ pub))
  else Throw (Error "private key must be 32 bytes").

(** [Keypair.fromSecretKey] (validating): the secret must be 64 bytes and
    its second half must be the public key of its first half. *)
Definition Keypair_fromSecretKey (sk : bytes) : result Keypair :=
  if decide (length sk = 64)
  then if decide (ed25519_getPublicKey (take 32 sk) = drop 32 sk)
       then Ok (mkKeypair (mkPublicKey (drop 32 sk)) sk)
       else Throw (Error "provided secretKey is invalid")
  else Throw (Error "bad secret key size").

(** [Transaction.partialSign (signer)]: compile the message, reset the
    signature slots when they do not match the required signers, then
    store the signer's signature in its slot. *)
Fixpoint addSignature (pk : PublicKey) (sig : bytes)
  (l : list (PublicKey * option bytes)) : option (list (PublicKey * option bytes)) :=
  match l with
  | [] => None
  | (k, s) :: l' =>
      if decide (pk = k) then Some ((k, Some sig) :: l')
      else (fun r => (k, s) :: r) <$> addSignature pk sig l'
  end.

Definition partialSign (tx : Transaction) (signer : Keypair) : result unit * Transaction :=
  match compileMessage tx with
  | Throw e => (Throw e, tx)
  | Ok (signedKeys, signData) =>
      let tx1 :=
        if decide (map fst (signatures tx) = signedKeys) then tx
        else set_signatures (map (fun k => (k, None)) signedKeys) tx in
      let sig := ed25519_sign signData (secretKey signer) in
      match addSignature (publicKey signer) sig (signatures tx1) with
      | Some sigs => (Ok tt, set_signatures sigs tx1)
      | None => (Throw (Error ("unknown signer: " +:+ toBase58 (publicKey signer))), tx1)
      end
  end.

(** [VersionedTransaction.sign ([signer])]: the message is only read. *)
Definition versionedSign (tx : VersionedTransaction) (signer : Keypair)
  : result unit * VersionedTransaction :=
  let messageData := serializeMessage (v_message tx) in
  let signerPubkeys :=
    take (numRequiredSignatures (v_message tx)) (staticAccountKeys (v_message tx)) in
  match findIndex (publicKey signer) signerPubkeys with
  | None =>
      (Throw (Error ("Cannot sign with non signer key " +:+ toBase58 (publicKey signer))), tx)
  | Some signerIndex =>
      (Ok tt,
       mkVersionedTransaction (v_message tx)
         (js_array_set signerIndex (ed25519_sign messageData (secretKey signer))
            (v_signatures tx)))
  end.

End Library.

(** ** [JSON.stringify (Array.from (bytes))] *)

Definition digit (n : N) : ascii := ascii_of_N (48 + n).

Definition decimal_of_byte (b : byte) : string :=
  let n := Byte.to_N b in
  if (n <? 10)%N then String (digit n) ""
  else if (n <? 100)%N then String (digit (n / 10)) (String (digit (n mod 10)) "")
  else String (digit (n / 100))
         (String (digit ((n / 10) mod 10)) (String (digit (n mod 10)) "")).

Fixpoint join_comma (l : list string) : string :=
  match l with
  | [] => ""
  | [s] => s
  | s :: l' => s +:+ "," +:+ join_comma l'
  end.

Definition JSON_stringify (bs : bytes) : string :=
  "[" +:+ join_comma (map decimal_of_byte bs) +:+ "]".

(** [new TextEncoder ().encode] and [Buffer.from (s, 'utf-8')]: a string
    is held as its UTF-8 bytes. *)
Definition utf8_encode (s : string) : bytes :=
  map byte_of_ascii (list_ascii_of_string s).

(** ** The outside world: wallet, ledgers, notifications *)

(** [getConnection ()] talks to the primary ledger (devnet),
    [new Connection (ER_ENDPOINT, ...)] to the rollup. *)
Inductive Connection := Devnet | MagicRouter | EphemeralRollup.

#[global] Instance Connection_eq_dec : EqDecision Connection.
Proof. solve_decision. Defined.

(** Instructions of the on-chain program submitted by the hook
    ([program.methods.<name> (...).rpc ()]). *)
Inductive ProgramCall :=
| registerSessionKey_call (key : PublicKey)
| revokeSessionKey_call.

Inductive ToastKind := toast_success | toast_error | toast_warning.

(** One entry per interaction with the outside, oldest first.  A toast is
    kept by its kind and title. *)
Inductive Event :=
| SignMessage (signer : PublicKey) (msg : bytes)
| SignTransaction (signer : PublicKey) (tx : Transaction)
| GetAccountInfo (c : Connection) (address : PublicKey)
| FetchPlayer (c : Connection) (address : PublicKey)
| RequestAirdrop (c : Connection) (address : PublicKey) (lamports : Z)
| Rpc (c : Connection) (signer : PublicKey) (call : ProgramCall)
| Toast (kind : ToastKind) (title : string).

Module AnchorWallet.
(** [AnchorWallet & { signMessage? }]: the signer answers from the history
    it has seen; [signMessage] is an optional capability. *)
Record t := mk {
  publicKey : PublicKey;
  signMessage : option (list Event -> bytes -> result bytes);
  signTransaction : list Event -> Transaction -> result Transaction
}.
End AnchorWallet.

Record AccountInfo := mkAccountInfo { owner : PublicKey; lamports : Z }.

(** A decoded [player] account of the program. *)
Record PlayerAccount := mkPlayerAccount {
  acc_x : Z;
  acc_y : Z;
  acc_authority : PublicKey;
  acc_sessionKey : option PublicKey
}.

(** The ledgers, as the client observes them through its connections. *)
Record Network := mkNetwork {
  net_getAccountInfo : list Event -> Connection -> PublicKey -> result (option AccountInfo);
  net_fetchPlayer : list Event -> Connection -> PublicKey -> result PlayerAccount;
  net_requestAirdrop : list Event -> Connection -> PublicKey -> Z -> result string;
  net_rpc : list Event -> Connection -> PublicKey -> ProgramCall -> result string
}.

(** ** State and the monad of asynchronous functions *)

(** [component] is the React state of the component or hook that runs the
    function; [localStorage] and the history are shared by all of them. *)
Record World (S : Type) := mkWorld {
  component : S;
  localStorage : gmap string string;
  trace : list Event
}.
Arguments mkWorld {S}.
Arguments component {S}.
Arguments localStorage {S}.
Arguments trace {S}.

Definition M (S A : Type) : Type := World S -> result A * World S.

Definition ret {S A} (a : A) : M S A := fun w => (Ok a, w).

Definition bind {S A B} (m : M S A) (k : A -> M S B) : M S B :=
  fun w => match m w with
           | (Ok a, w') => k a w'
           | (Throw e, w') => (Throw e, w')
           end.

Definition throw {S A} (e : JsError) : M S A := fun w => (Throw e, w).

(** [try { m } catch (e) { h e }] *)
Definition try_catch {S A} (m : M S A) (h : JsError -> M S A) : M S A :=
  fun w => match m w with
           | (Ok a, w') => (Ok a, w')
           | (Throw e, w') => h e w'
           end.

(** [try { m } finally { f }]: [f] runs on every way out of [m]. *)
Definition try_finally {S A} (m : M S A) (f : M S unit) : M S A :=
  fun w => match m w with
           | (r, w') =>
               match f w' with
               | (Ok _, w'') => (r, w'')
               | (Throw e, w'') => (Throw e, w'')
               end
           end.

Notation "'let!' x ':=' m 'in' k" := (bind m (fun x => k))
  (at level 10, x pattern, m at level 100, k at level 200).
Notation "m ';;' k" := (bind m (fun _ => k))
  (at level 100, k at level 200, right associativity).

Definition lift {S A} (r : result A) : M S A := fun w => (r, w).

Definition emit {S} (e : Event) : M S unit :=
  fun w => (Ok tt, mkWorld (component w) (localStorage w) (trace w ++ [e])).

(** An interaction with the outside: the oracle answers from the history,
    and the interaction is recorded. *)
Definition interact {S A} (e : Event) (answer : list Event -> result A) : M S A :=
  fun w => (answer (trace w), mkWorld (component w) (localStorage w) (trace w ++ [e])).

Definition get_state {S} : M S S := fun w => (Ok (component w), w).

Definition modify_state {S} (f : S -> S) : M S unit :=
  fun w => (Ok tt, mkWorld (f (component w)) (localStorage w) (trace w)).

Definition localStorage_getItem {S} (k : string) : M S (option string) :=
  fun w => (Ok (localStorage w !! k), w).

Definition localStorage_setItem {S} (k v : string) : M S unit :=
  fun w => (Ok tt, mkWorld (component w) (<[k := v]> (localStorage w)) (trace w)).

Definition localStorage_removeItem {S} (k : string) : M S unit :=
  fun w => (Ok tt, mkWorld (component w) (delete k (localStorage w)) (trace w)).

Definition toast {S} (kind : ToastKind) (title : string) : M S unit :=
  emit (Toast kind title).

(** Truthiness of [string | null]: null and the empty string are falsy. *)
Definition truthy (s : option string) : bool :=
  match s with
  | None => false
  | Some s => negb (String.eqb s "")
  end.

(** ** Calls through a connection *)

Section Calls.
Context (net : Network) {S : Type}.

(** [connection.getAccountInfo (address)] *)
Definition getAccountInfo (c : Connection) (address : PublicKey) : M S (option AccountInfo) :=
  interact (GetAccountInfo c address) (fun h => net_getAccountInfo net h c address).

(** [(program.account as any).player.fetch (address)], the program bound
    to a provider on connection [c]. *)
Definition fetchPlayer (c : Connection) (address : PublicKey) : M S PlayerAccount :=
  interact (FetchPlayer c address) (fun h => net_fetchPlayer net h c address).

(** [connection.requestAirdrop (address, lamports)] *)
Definition requestAirdrop (c : Connection) (address : PublicKey) (lamports : Z) : M S string :=
  interact (RequestAirdrop c address lamports)
    (fun h => net_requestAirdrop net h c address lamports).

(** [program.methods.<call> ().rpc ()], the program bound to a provider on
    connection [c] with the wallet [w] as signer. *)
Definition rpc (c : Connection) (w : AnchorWallet.t) (call : ProgramCall) : M S string :=
  interact (Rpc c (AnchorWallet.publicKey w) call)
    (fun h => net_rpc net h c (AnchorWallet.publicKey w) call).

End Calls.

(** ** [app/src/lib/sessionKey.ts] *)

Module SessionKey.
Section SessionKey.
Context `{P : Platform} {S : Type}.

Definition SESSION_KEY_MESSAGE : string :=
  "Sign this message to generate your deterministic session key for the game. This key will be the same across all devices.".

Definition newline : string := String (ascii_of_nat 10) "".

(** The message bound to the origin, [messageText]. *)
Definition messageText : string :=
  let origin := match window_origin with Some o => o | None => "unknown" end in
  SESSION_KEY_MESSAGE +:+ newline +:+ newline +:+ "Origin: " +:+ origin.

Definition messageBytes : bytes := utf8_encode messageText.

(** The pseudo-transaction of the fallback path; sha256 digests are 32
    bytes long, which [new PublicKey] takes as they are. *)
Definition fallbackTransaction (wallet : AnchorWallet.t) : Transaction :=
  let memoInstruction := mkInstruction [] MEMO_PROGRAM_ID (utf8_encode messageText) in
  let transaction := add newTransaction memoInstruction in
  let canonicalHash := sha256 (toBuffer (AnchorWallet.publicKey wallet) ++ messageBytes) in
  let canonicalKey := mkPublicKey canonicalHash in
  set_feePayer (AnchorWallet.publicKey wallet)
    (set_recentBlockhash (toBase58 canonicalKey) transaction).

(** The signature the wallet is asked for, by [signMessage] when the
    wallet has it, else by signing the pseudo-transaction. *)
Definition requestSignature (wallet : AnchorWallet.t) : M S bytes :=
  match AnchorWallet.signMessage wallet with
  | Some signMessage =>
      interact (SignMessage (AnchorWallet.publicKey wallet) messageBytes)
        (fun h => signMessage h messageBytes)
  | None =>
      let transaction := fallbackTransaction wallet in
      let! signed := interact (SignTransaction (AnchorWallet.publicKey wallet) transaction)
                       (fun h => AnchorWallet.signTransaction wallet h transaction) in
      match signature signed with
      | None => throw (Error "Failed to get signature from wallet")
      | Some s => ret s
      end
  end.

(** The seed of a signature: [sha256 (signature ++ messageBytes).slice (0, 32)]. *)
Definition seedOf (signature : bytes) : bytes :=
  take 32 (sha256 (signature ++ messageBytes)).

Definition deriveSessionKey (wallet : AnchorWallet.t) : M S Keypair :=
  let! signature := requestSignature wallet in
  let seed := seedOf signature in
  lift (Keypair_fromSeed seed).

Definition cacheKey (walletPubkey : PublicKey) : string :=
  "session_key_" +:+ toBase58 walletPubkey.

(** Lines 87-97 of [getOrCreateSessionKey]: the cached key, when there is
    an entry that deserializes; a failure is caught and logged. *)
Definition loadCached (walletPubkey : PublicKey) : M S (option Keypair) :=
  let! cached := localStorage_getItem (cacheKey walletPubkey) in
  match cached with
  | Some text =>
      if truthy cached then
        try_catch
          (let! secretKey := lift (bytes_of_JSON text) in
           let! keypair := lift (Keypair_fromSecretKey secretKey) in
           ret (Some keypair))
          (fun e => ret None)
      else ret None
  | None => ret None
  end.

(** Line 104: [localStorage.setItem (cacheKey, JSON.stringify (Array.from (secretKey)))]. *)
Definition storeCached (walletPubkey : PublicKey) (sessionKey : Keypair) : M S unit :=
  localStorage_setItem (cacheKey walletPubkey) (JSON_stringify (secretKey sessionKey)).

Definition getOrCreateSessionKey (wallet : AnchorWallet.t) (walletPubkey : PublicKey)
  : M S Keypair :=
  let! loaded := loadCached walletPubkey in
  match loaded with
  | Some keypair => ret keypair
  | None =>
      let! sessionKey := deriveSessionKey wallet in
      storeCached walletPubkey sessionKey ;;
      ret sessionKey
  end.

Definition clearSessionKey (walletPubkey : PublicKey) : M S unit :=
  localStorage_removeItem (cacheKey walletPubkey).

Definition hasSessionKey (walletPubkey : PublicKey) : M S bool :=
  let! cached := localStorage_getItem (cacheKey walletPubkey) in
  ret (bool_decide (cached <> None)).

End SessionKey.

(** [class SessionWallet implements AnchorWallet] *)
Record SessionWallet := mkSessionWallet {
  mainWallet : AnchorWallet.t;
  sessionKey : Keypair
}.

Section SessionWallet.
Context `{P : Platform}.

Definition SessionWallet_publicKey (this : SessionWallet) : PublicKey :=
  publicKey (sessionKey this).

(** [signTransaction (tx)]: the transaction object is mutated in place and
    returned; the second component is the object after the call. *)
Definition signTransaction (this : SessionWallet) (tx : AnyTransaction)
  : result unit * AnyTransaction :=
  match tx with
  | Versioned vtx =>
      let (r, vtx') := versionedSign vtx (sessionKey this) in
      (r, Versioned vtx')
  | Legacy ltx =>
      let ltx1 := set_feePayer (publicKey (sessionKey this)) ltx in
      let (r, ltx2) := partialSign ltx1 (sessionKey this) in
      (r, Legacy ltx2)
  end.

Definition signMessage (this : SessionWallet) (message : bytes) : bytes :=
  ed25519_sign message (secretKey (sessionKey this)).

End SessionWallet.
End SessionKey.

(** ** [app/src/lib/anchor.ts] *)

Section Anchor.
Context `{P : Platform}.

Definition getPlayerPda (authority : PublicKey) : PublicKey :=
  findProgramAddressSync [utf8_encode "player"; toBuffer authority] PROGRAM_ID.

Definition getConnection (useMagicRouter : bool) : Connection :=
  if useMagicRouter then MagicRouter else Devnet.

(** The connection of the ledger that holds the account. *)
Definition getConnectionForAccount (isDelegated : bool) : Connection :=
  if isDelegated then EphemeralRollup else getConnection false.

(** [a.toString () !== b.toString ()] on public keys. *)
Definition differs (a b : PublicKey) : bool :=
  negb (String.eqb (toBase58 a) (toBase58 b)).

End Anchor.

(** ** [app/src/hooks/useSessionKey.ts] *)

Module UseSessionKey.
Import SessionKey.

(** What [useWallet], [useAnchorWallet] and the hook's [useState] cells
    hold.  A function of the hook reads the cells as its render saw them;
    the cells it reads ([wallet], [publicKey], and [sessionKey] on entry)
    are not written before they are read, so reading the current cell is
    the same. *)
Record State := mkState {
  wallet : option AnchorWallet.t;
  publicKey : option PublicKey;
  sessionKey : option Keypair;
  sessionWallet : option SessionWallet;
  isRegistered : bool;
  loading : bool;
  isDelegated : bool
}.

Definition setSessionKey (v : option Keypair) : M State unit :=
  modify_state (fun s => mkState (wallet s) (publicKey s) v (sessionWallet s)
                           (isRegistered s) (loading s) (isDelegated s)).

Definition setSessionWallet (v : option SessionWallet) : M State unit :=
  modify_state (fun s => mkState (wallet s) (publicKey s) (sessionKey s) v
                           (isRegistered s) (loading s) (isDelegated s)).

Definition setIsRegistered (v : bool) : M State unit :=
  modify_state (fun s => mkState (wallet s) (publicKey s) (sessionKey s) (sessionWallet s)
                           v (loading s) (isDelegated s)).

Definition setLoading (v : bool) : M State unit :=
  modify_state (fun s => mkState (wallet s) (publicKey s) (sessionKey s) (sessionWallet s)
                           (isRegistered s) v (isDelegated s)).

Definition setIsDelegated (v : bool) : M State unit :=
  modify_state (fun s => mkState (wallet s) (publicKey s) (sessionKey s) (sessionWallet s)
                           (isRegistered s) (loading s) v).

Section Hook.
Context `{P : Platform} (net : Network).

(** The live read of the delegation owner. *)
Definition getCurrentDelegationStatus : M State bool :=
  let! s := get_state in
  match wallet s, publicKey s with
  | Some w, Some pk =>
      try_catch
        (let connection := getConnection false in
         let playerPda := getPlayerPda pk in
         let! accountInfo := getAccountInfo net connection playerPda in
         match accountInfo with
         | None => ret false
         | Some info => ret (differs (owner info) PROGRAM_ID)
         end)
        (fun error => ret false)
  | _, _ => ret false
  end.

Definition createSessionKey : M State (option Keypair) :=
  let! s := get_state in
  match wallet s, publicKey s with
  | Some w, Some pk =>
      setLoading true ;;
      try_finally
        (try_catch
           (let! key := getOrCreateSessionKey w pk in
            setSessionKey (Some key) ;;
            let sessWallet := mkSessionWallet w key in
            setSessionWallet (Some sessWallet) ;;
            toast toast_success "Session key created" ;;
            ret (Some key))
           (fun error =>
              toast toast_error "Failed to create session key" ;;
              ret None))
        (setLoading false)
  | _, _ =>
      toast toast_error "Wallet not connected" ;;
      ret None
  end.

Definition registerSessionKey : M State bool :=
  let! s := get_state in
  match wallet s, publicKey s with
  | Some w, Some pk =>
      setLoading true ;;
      try_finally
        (try_catch
           (let! key := match sessionKey s with
                        | Some key => ret (Some key)
                        | None => createSessionKey
                        end in
            match key with
            | None => ret false
            | Some key =>
                let! currentlyDelegated := getCurrentDelegationStatus in
                let connection := getConnectionForAccount currentlyDelegated in
                let! tx := rpc net connection w (registerSessionKey_call (Web3.publicKey key)) in
                let location := if currentlyDelegated then " on ER" else " on base layer" in
                toast toast_success ("Session key registered" +:+ location +:+ "!") ;;
                setIsRegistered true ;;
                setIsDelegated currentlyDelegated ;;
                ret true
            end)
           (fun error =>
              toast toast_error "Failed to register session key" ;;
              ret false))
        (setLoading false)
  | _, _ =>
      toast toast_error "Wallet not connected" ;;
      ret false
  end.

Definition revokeSessionKey : M State bool :=
  let! s := get_state in
  match wallet s, publicKey s with
  | Some w, Some pk =>
      setLoading true ;;
      try_finally
        (try_catch
           (let! currentlyDelegated := getCurrentDelegationStatus in
            let connection := getConnectionForAccount currentlyDelegated in
            let! tx := rpc net connection w revokeSessionKey_call in
            let location := if currentlyDelegated then " on ER" else " on base layer" in
            toast toast_success ("Session key revoked" +:+ location) ;;
            clearSessionKey pk ;;
            setSessionKey None ;;
            setSessionWallet None ;;
            setIsRegistered false ;;
            ret true)
           (fun error =>
              toast toast_error "Failed to revoke session key" ;;
              ret false))
        (setLoading false)
  | _, _ =>
      toast toast_error "Wallet not connected" ;;
      ret false
  end.

Definition clearSessionOnUndelegate : M State unit :=
  let! s := get_state in
  match publicKey s with
  | Some pk =>
      clearSessionKey pk ;;
      setSessionKey None ;;
      setSessionWallet None ;;
      setIsRegistered false
  | None => ret tt
  end.

End Hook.
End UseSessionKey.

(** ** [app/src/components/GameBoard.tsx] *)

Module GameBoard.

Module PlayerData.
(** [interface PlayerData]; [isDelegated] is optional. *)
Record t := mk {
  x : Z;
  y : Z;
  authority : string;
  sessionKey : option string;
  isDelegated : option bool
}.
End PlayerData.

(** The component's state cells and connection refs. *)
Record State := mkState {
  wallet : option AnchorWallet.t;
  publicKey : option PublicKey;
  basePlayer : option PlayerData.t;
  erPlayer : option PlayerData.t;
  isDelegated : bool;
  baseConnection : option Connection;
  erConnection : option Connection
}.

Definition setBasePlayer (v : option PlayerData.t) : M State unit :=
  modify_state (fun s => mkState (wallet s) (publicKey s) v (erPlayer s) (isDelegated s)
                           (baseConnection s) (erConnection s)).

Definition setErPlayer (v : option PlayerData.t) : M State unit :=
  modify_state (fun s => mkState (wallet s) (publicKey s) (basePlayer s) v (isDelegated s)
                           (baseConnection s) (erConnection s)).

Definition setIsDelegated (v : bool) : M State unit :=
  modify_state (fun s => mkState (wallet s) (publicKey s) (basePlayer s) (erPlayer s) v
                           (baseConnection s) (erConnection s)).

(** [const player = isDelegated ? erPlayer : basePlayer] *)
Definition player (s : State) : option PlayerData.t :=
  if isDelegated s then erPlayer s else basePlayer s.

Section Board.
Context `{P : Platform} (net : Network).

(** [key?.toString () || null] *)
Definition keyString (k : option PublicKey) : option string :=
  match k with
  | Some k => if truthy (Some (toBase58 k)) then Some (toBase58 k) else None
  | None => None
  end.

Definition snapshot (a : PlayerAccount) (delegated : bool) : PlayerData.t :=
  PlayerData.mk (acc_x a) (acc_y a) (toBase58 (acc_authority a))
    (keyString (acc_sessionKey a)) (Some delegated).

Definition fetchPlayerData : M State unit :=
  let! s := get_state in
  match wallet s, publicKey s, baseConnection s with
  | Some w, Some pk, Some base =>
      try_catch
        (let playerPda := getPlayerPda pk in
         let! accountInfo := getAccountInfo net base playerPda in
         match accountInfo with
         | None =>
             setBasePlayer None ;;
             setErPlayer None ;;
             setIsDelegated false
         | Some info =>
             let delegated := differs (owner info) PROGRAM_ID in
             setIsDelegated delegated ;;
             try_catch
               (let! playerAccount := fetchPlayer net base playerPda in
                setBasePlayer (Some (snapshot playerAccount false)))
               (fun e => ret tt) ;;
             match (if delegated then erConnection s else None) with
             | Some er =>
                 try_catch
                   (try_catch
                      (requestAirdrop net er playerPda 1 ;; ret tt)
                      (fun _ => ret tt) ;;
                    let! erPlayerAccount := fetchPlayer net er playerPda in
                    setErPlayer (Some (snapshot erPlayerAccount true)))
                   (fun e => ret tt)
             | None => setErPlayer None
             end
         end)
        (fun error =>
           setBasePlayer None ;;
           setErPlayer None ;;
           setIsDelegated false)
  | _, _, _ => ret tt
  end.

End Board.
End GameBoard.

(** ** Vocabulary of the properties *)

Section Vocabulary.
Context `{P : Platform}.

(** Deserialization of a cache entry, as [getOrCreateSessionKey] does it
    inside its [try]. *)
Definition deserialize (text : string) : result Keypair :=
  match bytes_of_JSON text with
  | Ok secretKey => Keypair_fromSecretKey secretKey
  | Throw e => Throw e
  end.

(** The fee payer of a transaction of either kind. *)
Definition feePayerOf (tx : AnyTransaction) : option PublicKey :=
  match tx with
  | Legacy ltx => feePayer ltx
  | Versioned vtx => v_feePayer vtx
  end.

(** Reading a JavaScript array: a hole and an index out of range both
    read as undefined. *)
Definition js_array_get {A} (l : list (option A)) (i : nat) : option A :=
  match l !! i with
  | Some v => v
  | None => None
  end.

End Vocabulary.

(** The events a run added to the history. *)
Definition added {S} (before after : World S) : list Event :=
  drop (length (trace before)) (trace after).

(** The ledger connection an event goes through, if any. *)
Definition connectionOf (e : Event) : option Connection :=
  match e with
  | GetAccountInfo c _ | FetchPlayer c _ | RequestAirdrop c _ _ | Rpc c _ _ => Some c
  | SignMessage _ _ | SignTransaction _ _ | Toast _ _ => None
  end.

(** The authoritative snapshot in the words of the specification: the
    rollup snapshot if delegated and present, else the primary one. *)
Definition spec_authoritative {A} (primary rollup : option A) (isDelegated : bool) : option A :=
  match isDelegated, rollup with
  | true, Some r => Some r
  | _, _ => primary
  end.

(** [m] leaves the projection [proj] of the component state alone and
    adds only events satisfying [Q] to the history. *)
Definition steady {S A X} (proj : S -> X) (Q : Event -> Prop) (m : M S A) : Prop :=
  forall w, proj (component (snd (m w))) = proj (component w) /\
            exists evs, trace (snd (m w)) = trace w ++ evs /\ Forall Q evs.

(** Events that stay between the client, the wallet and the user: no
    ledger is read or written. *)
Definition offLedger (e : Event) : Prop :=
  match e with
  | SignMessage _ _ | SignTransaction _ _ | Toast _ _ => True
  | _ => False
  end.

Module HookVocabulary.
Import UseSessionKey.
Section HookVocabulary.
Context `{P : Platform} (net : Network).

(** The connected identity of the hook. *)
Definition identity (s : State) : option AnchorWallet.t * option PublicKey :=
  (wallet s, publicKey s).

(** What the live read of the primary ledger says at a given moment:
    delegated when the account exists and its owner is not the program. *)
Definition liveDelegated (history : list Event) (pk : PublicKey) : bool :=
  match net_getAccountInfo net history Devnet (getPlayerPda pk) with
  | Ok (Some info) => differs (owner info) PROGRAM_ID
  | _ => false
  end.


(** The first step of [registerSessionKey]: the key held in the hook's
    state, or else the outcome of [createSessionKey]. *)
Definition obtainKey (held : option Keypair) : M State (option Keypair) :=
  match held with
  | Some key => ret (Some key)
  | None => createSessionKey
  end.

(** The local credential is gone: no cache entry for the identity, no
    session key and no session wallet in memory. *)
Definition cleared (pk : PublicKey) (w : World State) : Prop :=
  localStorage w !! SessionKey.cacheKey pk = None /\
  sessionKey (component w) = None /\
  sessionWallet (component w) = None.

(** The local credential is as it was. *)
Definition kept (w w' : World State) : Prop :=
  localStorage w' = localStorage w /\
  sessionKey (component w') = sessionKey (component w) /\
  sessionWallet (component w') = sessionWallet (component w).

End HookVocabulary.
End HookVocabulary.

(** ** A small platform and network to run the model on

    Stand-ins of the right shape for the library functions: they are used
    to evaluate the client's functions on concrete inputs, not as models
    of the cryptography. *)

Module Fixture.

Definition pad (n : nat) (bs : bytes) : bytes := take n (bs ++ replicate n x00).

Definition digit_value (c : ascii) : option N :=
  let n := N_of_ascii c in
  if ((48 <=? n) && (n <=? 57))%N then Some (n - 48)%N else None.

Definition byte_of_number (n : N) : byte :=
  match Byte.of_N (n mod 256) with Some b => b | None => x00 end.

(** A reader of arrays of decimal numbers, [[n,n,...]]. *)
Fixpoint parse_array (s : string) (cur : option N) (acc : bytes) : result bytes :=
  match s with
  | EmptyString => Throw (Error "Unexpected end of JSON input")
  | String c rest =>
      match digit_value c with
      | Some d =>
          parse_array rest (Some (10 * (match cur with Some n => n | None => 0 end) + d)%N) acc
      | None =>
          if Ascii.eqb c ","
          then match cur with
               | Some n => parse_array rest None (acc ++ [byte_of_number n])
               | None => Throw (Error "Unexpected token ,")
               end
          else if Ascii.eqb c "]"
          then match rest, cur, acc with
               | EmptyString, Some n, _ => Ok (acc ++ [byte_of_number n])
               | EmptyString, None, [] => Ok []
               | _, _, _ => Throw (Error "Unexpected token ]")
               end
          else Throw (Error "Unexpected token")
      end
  end.

Definition read_array (s : string) : result bytes :=
  match s with
  | String "[" rest => parse_array rest None []
  | _ => Throw (Error "Unexpected token")
  end.

Definition render_key (k : PublicKey) : string :=
  string_of_list_ascii (map ascii_of_byte (toBuffer k)).

Definition compile (tx : Transaction) : result (list PublicKey * bytes) :=
  match feePayer tx, recentBlockhash tx with
  | Some payer, Some h =>
      Ok ([payer], toBuffer payer ++ utf8_encode h ++ concat (map data (instructions tx)))
  | None, _ => Throw (Error "Transaction fee payer required")
  | _, None => Throw (Error "Transaction recentBlockhash required")
  end.

Definition platform : Platform := {|
  sha256 := pad 32;
  ed25519_getPublicKey := fun seed => pad 32 (rev seed);
  ed25519_sign := fun msg sk => pad 64 (sk ++ msg);
  toBase58 := render_key;
  bytes_of_JSON := read_array;
  compileMessage := compile;
  serializeMessage := fun m => utf8_encode (v_recentBlockhash m) ++ compiledInstructions m;
  PROGRAM_ID := mkPublicKey (utf8_encode "program");
  findProgramAddressSync := fun seeds prog => mkPublicKey (pad 32 (concat seeds ++ toBuffer prog));
  MEMO_PROGRAM_ID := mkPublicKey (utf8_encode "memo");
  window_origin := Some "https://game.example"
|}.

Definition alice : PublicKey := mkPublicKey (utf8_encode "alice").

(** A wallet that signs messages, and one that only signs transactions. *)
Definition messageWallet : AnchorWallet.t :=
  AnchorWallet.mk alice
    (Some (fun _ msg => Ok (pad 64 (utf8_encode "sig:" ++ msg))))
    (fun _ tx => Ok tx).

Definition transactionWallet : AnchorWallet.t :=
  AnchorWallet.mk alice None
    (fun _ tx => Ok (set_signatures [(alice, Some (pad 64 (utf8_encode "txsig")))] tx)).

(** A wallet whose user declines every prompt. *)
Definition decliningWallet : AnchorWallet.t :=
  AnchorWallet.mk alice
    (Some (fun _ _ => Throw (Error "User rejected the request")))
    (fun _ _ => Throw (Error "User rejected the request")).

(** Ledgers on which alice's player account exists with the given owner
    and every submission is answered by [answer]. *)
Definition ledgers (accountOwner : option PublicKey) (answer : result string) : Network :=
  mkNetwork
    (fun _ _ _ => Ok ((fun o => mkAccountInfo o 1000) <$> accountOwner))
    (fun _ c _ => Ok (mkPlayerAccount (if decide (c = EphemeralRollup) then 7 else 5)
                        (if decide (c = EphemeralRollup) then 7 else 5) alice None))
    (fun _ _ _ _ => Ok "airdrop")
    (fun _ _ _ _ => answer).

(** Ledgers that cannot be reached for reads. *)
Definition unreachable (answer : result string) : Network :=
  mkNetwork
    (fun _ _ _ => Throw (Error "failed to fetch"))
    (fun _ _ _ => Throw (Error "failed to fetch"))
    (fun _ _ _ _ => Throw (Error "failed to fetch"))
    (fun _ _ _ _ => answer).

Definition delegationProgram : PublicKey := mkPublicKey (utf8_encode "delegation").

Definition keyOf (r : result Keypair) : Keypair :=
  match r with
  | Ok k => k
  | Throw _ => mkKeypair (mkPublicKey []) []
  end.

(** The signature [messageWallet] gives, and the key pair derived from it. *)
Definition aliceSignature : bytes :=
  pad 64 (utf8_encode "sig:" ++ SessionKey.messageBytes (P:=platform)).

Definition derivedKeypair : Keypair :=
  keyOf (Keypair_fromSeed (P:=platform) (SessionKey.seedOf (P:=platform) aliceSignature)).

Definition aliceCache : gmap string string :=
  {[ SessionKey.cacheKey (P:=platform) alice := JSON_stringify (secretKey derivedKeypair) ]}.

(** A bare world, and one with a cache entry and some history. *)
Definition bare : World unit := mkWorld tt ∅ [].

Definition used : World unit :=
  mkWorld tt aliceCache [Toast toast_success "Session key created"].

(** A cache entry cut short. *)
Definition corrupted : World unit :=
  mkWorld tt {[ SessionKey.cacheKey (P:=platform) alice := "[12,3" ]} [].

(** The hook with alice connected: before any key exists, and with an
    active session key. *)
Definition fresh : World UseSessionKey.State :=
  mkWorld (UseSessionKey.mkState (Some messageWallet) (Some alice) None None false false false)
    ∅ [].

Definition active : World UseSessionKey.State :=
  mkWorld
    (UseSessionKey.mkState (Some messageWallet) (Some alice) (Some derivedKeypair)
       (Some (SessionKey.mkSessionWallet messageWallet derivedKeypair)) true false false)
    aliceCache [].

Definition afterKeyStep : World UseSessionKey.State :=
  snd (HookVocabulary.obtainKey (P:=platform) None (snd (UseSessionKey.setLoading true fresh))).

(** The board with alice connected and both connections open. *)
Definition board : World GameBoard.State :=
  mkWorld
    (GameBoard.mkState (Some messageWallet) (Some alice) None None false
       (Some Devnet) (Some EphemeralRollup))
    ∅ [].

(** Ledgers on which the account is delegated but the rollup does not
    answer reads. *)
Definition rollupDown : Network :=
  mkNetwork
    (fun _ _ _ => Ok (Some (mkAccountInfo delegationProgram 1000)))
    (fun _ c _ => if decide (c = EphemeralRollup)
                  then Throw (Error "Account does not exist")
                  else Ok (mkPlayerAccount 5 5 alice None))
    (fun _ _ _ _ => Throw (Error "airdrop failed"))
    (fun _ _ _ _ => Ok "tx").

Definition aliceSessionWallet : SessionKey.SessionWallet :=
  SessionKey.mkSessionWallet messageWallet derivedKeypair.

Definition legacyTransfer : Transaction :=
  mkTransaction (Some alice) (Some "blockhash")
    [mkInstruction [alice] (mkPublicKey (utf8_encode "system")) (utf8_encode "move")] [].

Definition versionedMove : VersionedTransaction :=
  mkVersionedTransaction
    (mkVersionedMessage 1 [publicKey derivedKeypair; alice] "blockhash" (utf8_encode "move"))
    [None].

End Fixture.

(** ** More of [app/src/hooks/useSessionKey.ts] *)

Module Lifecycle.
Import SessionKey UseSessionKey.
Section Lifecycle.
Context `{P : Platform} (net : Network).

(** Runs when the connection changes: brings a cached key back into the
    hook's state. *)
Definition restoreSessionKey : M State unit :=
  let! s := get_state in
  match wallet s, publicKey s with
  | Some w, Some pk =>
      try_catch
        (let! cachedKey := hasSessionKey pk in
         if cachedKey then
           let! key := getOrCreateSessionKey w pk in
           setSessionKey (Some key) ;;
           let sessWallet := mkSessionWallet w key in
           setSessionWallet (Some sessWallet)
         else ret tt)
        (fun error => ret tt)
  | _, _ =>
      setSessionKey None ;;
      setSessionWallet None
  end.

(** [accountInfo?.owner.toString () !== program.programId.toString ()]:
    with no account the left side is undefined, which differs from every
    string. *)
Definition ownerDiffers (accountInfo : option AccountInfo) : bool :=
  match accountInfo with
  | Some info => differs (owner info) PROGRAM_ID
  | None => true
  end.

Definition checkRegistration : M State unit :=
  let! s := get_state in
  match wallet s, publicKey s with
  | Some w, Some pk =>
      try_catch
        (let connection := getConnection false in
         let playerPda := getPlayerPda pk in
         let! accountInfo := getAccountInfo net connection playerPda in
         let delegated := ownerDiffers accountInfo in
         setIsDelegated delegated ;;
         let correctConnection := getConnectionForAccount delegated in
         let! player := fetchPlayer net correctConnection playerPda in
         let hasRegisteredKey := bool_decide (acc_sessionKey player <> None) in
         setIsRegistered hasRegisteredKey)
        (fun error =>
           setIsRegistered false ;;
           setIsDelegated false)
  | _, _ =>
      setIsRegistered false ;;
      setIsDelegated false
  end.

(** [registerSessionKey] as a render defines it: [held] is the value of
    the [sessionKey] cell that the render captured. *)
Definition registerSessionKeyFrom (held : option Keypair) : M State bool :=
  let! s := get_state in
  match wallet s, publicKey s with
  | Some w, Some pk =>
      setLoading true ;;
      try_finally
        (try_catch
           (let! key := match held with
                        | Some key => ret (Some key)
                        | None => createSessionKey
                        end in
            match key with
            | None => ret false
            | Some key =>
                let! currentlyDelegated := getCurrentDelegationStatus net in
                let connection := getConnectionForAccount currentlyDelegated in
                let! tx := rpc net connection w (registerSessionKey_call (Web3.publicKey key)) in
                let location := if currentlyDelegated then " on ER" else " on base layer" in
                toast toast_success ("Session key registered" +:+ location +:+ "!") ;;
                setIsRegistered true ;;
                setIsDelegated currentlyDelegated ;;
                ret true
            end)
           (fun error =>
              toast toast_error "Failed to register session key" ;;
              ret false))
        (setLoading false)
  | _, _ =>
      toast toast_error "Wallet not connected" ;;
      ret false
  end.

(** [initializeSession]: both calls belong to the render that made this
    function, so [registerSessionKey] still sees the [sessionKey] cell as
    it was before [createSessionKey] ran. *)
Definition initializeSession : M State unit :=
  let! s := get_state in
  let! key := createSessionKey in
  match key with
  | Some _ => registerSessionKeyFrom (sessionKey s) ;; ret tt
  | None => ret tt
  end.

End Lifecycle.
End Lifecycle.

(** ** [SessionWallet.signAllTransactions] *)

Module SignAll.
Import SessionKey.
Section SignAll.
Context `{P : Platform}.

(** [txs.map (tx => ...)] with the body of [signTransaction]: the
    transactions are signed in order, and a thrown error ends the map,
    leaving the later ones as they were.  The transactions are taken to
    be distinct objects. *)
Fixpoint signAllTransactions (this : SessionWallet) (txs : list AnyTransaction)
  : result unit * list AnyTransaction :=
  match txs with
  | [] => (Ok tt, [])
  | tx :: rest =>
      match signTransaction this tx with
      | (Ok _, tx') =>
          let (r, rest') := signAllTransactions this rest in
          (r, tx' :: rest')
      | (Throw e, tx') => (Throw e, tx' :: rest)
      end
  end.

End SignAll.
End SignAll.

(** ** The subscription handlers of [GameBoard.tsx] *)

Module Subscriptions.
Import GameBoard.

(** What a handler uses of a pushed account. *)
Record PushedAccount := mkPushedAccount {
  pushed_owner : PublicKey;
  pushed_data : bytes
}.

Section Subscriptions.
Context `{P : Platform}.
(** [program.coder.accounts.decode ('player', data)]: throws on bytes
    that are not a player account. *)
Variable decodePlayer : bytes -> result PlayerAccount.

Definition handleBaseChange (accountInfo : PushedAccount) : M State unit :=
  try_catch
    (let! decodedData := lift (decodePlayer (pushed_data accountInfo)) in
     setBasePlayer (Some (snapshot decodedData false)) ;;
     let delegated := differs (pushed_owner accountInfo) PROGRAM_ID in
     setIsDelegated delegated)
    (fun error => ret tt).

Definition handleErChange (accountInfo : PushedAccount) : M State unit :=
  try_catch
    (let! decodedData := lift (decodePlayer (pushed_data accountInfo)) in
     setErPlayer (Some (snapshot decodedData true)))
    (fun error => ret tt).

End Subscriptions.
End Subscriptions.

(** ** Running a function of one component inside another *)

(** [zoom get set m] runs [m] on the part [get] of the state and writes
    the part back with [set]; storage and history are shared. *)
Definition zoom {S T A} (get : T -> S) (set : S -> T -> T) (m : M S A) : M T A :=
  fun w =>
    let (r, w') := m (mkWorld (get (component w)) (localStorage w) (trace w)) in
    (r, mkWorld (set (component w') (component w)) (localStorage w') (trace w')).

(** ** [app/src/components/SessionKeySetupDialog.tsx] *)

Module SetupDialog.

(** Calls the dialog makes to its props [onComplete] and [onOpenChange]. *)
Inductive Callback := onComplete | onOpenChange (open : bool).

(** The dialog's state cells, the [setTimeout] callbacks that are pending
    (each is [onComplete (); handleClose ()], kept by its delay in
    milliseconds) and the calls made to the props so far. *)
Record State := mkState {
  currentStep : nat;
  completedSteps : gset nat;
  loading : bool;
  error : option string;
  sessionKeyPubkey : option string;
  sessionKeyBalance : QArith_base.Q;
  timers : list nat;
  calls : list Callback
}.

Definition initial : State := mkState 0 ∅ false None None (QArith_base.Qmake 0 1) [] [].

(** The dialog together with the state of the component that renders it. *)
Record Page (Parent : Type) := mkPage { dialog : State; parent : Parent }.
Arguments mkPage {Parent}.
Arguments dialog {Parent}.
Arguments parent {Parent}.

Section Dialog.
Context `{P : Platform} {Parent : Type}.
(** The props [createSessionKey], [registerSessionKey] and
    [fundSessionKey]: functions of the parent. *)
Variable createSessionKey : M Parent (option Keypair).
Variable registerSessionKey : M Parent bool.
Variable fundSessionKey : M Parent bool.
(** [connection.getBalance (new PublicKey (address))] on the prop
    [connection]: the balance in lamports, or an error (an address that
    is no public key, a ledger that does not answer). *)
Variable getBalance : string -> M Parent Z.

Definition inParent {A} (m : M Parent A) : M (Page Parent) A :=
  zoom parent (fun p page => mkPage (dialog page) p) m.

Definition update (f : State -> State) : M (Page Parent) unit :=
  modify_state (fun page => mkPage (f (dialog page)) (parent page)).

Definition setCurrentStep (v : nat) : M (Page Parent) unit :=
  update (fun d => mkState v (completedSteps d) (loading d) (error d)
                     (sessionKeyPubkey d) (sessionKeyBalance d) (timers d) (calls d)).

Definition setCompletedSteps (v : gset nat) : M (Page Parent) unit :=
  update (fun d => mkState (currentStep d) v (loading d) (error d)
                     (sessionKeyPubkey d) (sessionKeyBalance d) (timers d) (calls d)).

Definition setLoading (v : bool) : M (Page Parent) unit :=
  update (fun d => mkState (currentStep d) (completedSteps d) v (error d)
                     (sessionKeyPubkey d) (sessionKeyBalance d) (timers d) (calls d)).

Definition setError (v : option string) : M (Page Parent) unit :=
  update (fun d => mkState (currentStep d) (completedSteps d) (loading d) v
                     (sessionKeyPubkey d) (sessionKeyBalance d) (timers d) (calls d)).

Definition setSessionKeyPubkey (v : option string) : M (Page Parent) unit :=
  update (fun d => mkState (currentStep d) (completedSteps d) (loading d) (error d)
                     v (sessionKeyBalance d) (timers d) (calls d)).

Definition setSessionKeyBalance (v : QArith_base.Q) : M (Page Parent) unit :=
  update (fun d => mkState (currentStep d) (completedSteps d) (loading d) (error d)
                     (sessionKeyPubkey d) v (timers d) (calls d)).

(** [setTimeout (() => { onComplete (); handleClose () }, delay)] *)
Definition setTimeout (delay : nat) : M (Page Parent) unit :=
  update (fun d => mkState (currentStep d) (completedSteps d) (loading d) (error d)
                     (sessionKeyPubkey d) (sessionKeyBalance d) (timers d ++ [delay]) (calls d)).

Definition clearTimer (i : nat) : M (Page Parent) unit :=
  update (fun d => mkState (currentStep d) (completedSteps d) (loading d) (error d)
                     (sessionKeyPubkey d) (sessionKeyBalance d) (delete i (timers d)) (calls d)).

Definition call (c : Callback) : M (Page Parent) unit :=
  update (fun d => mkState (currentStep d) (completedSteps d) (loading d) (error d)
                     (sessionKeyPubkey d) (sessionKeyBalance d) (timers d) (calls d ++ [c])).

(** [err.message || "An error occurred"] *)
Definition errorText (err : JsError) : string :=
  if String.eqb (message err) "" then "An error occurred" else message err.

Definition handleClose : M (Page Parent) unit :=
  setCurrentStep 0 ;;
  setCompletedSteps ∅ ;;
  setError None ;;
  setSessionKeyPubkey None ;;
  setSessionKeyBalance (QArith_base.Qmake 0 1) ;;
  call (onOpenChange false).

Definition handleNext : M (Page Parent) unit :=
  let! page := get_state in
  let currentStep := currentStep (dialog page) in
  let completedSteps := completedSteps (dialog page) in
  setLoading true ;;
  setError None ;;
  try_finally
    (try_catch
       (if Nat.eqb currentStep 0 then
          let! key := inParent createSessionKey in
          match key with
          | None =>
              setError (Some "Failed to create session key") ;;
              setLoading false
          | Some key =>
              setSessionKeyPubkey (Some (toBase58 (publicKey key))) ;;
              setCompletedSteps (completedSteps ∪ {[0]}) ;;
              setCurrentStep 1
          end
        else if Nat.eqb currentStep 1 then
          let! success := inParent registerSessionKey in
          if success then
            setCompletedSteps (completedSteps ∪ {[1]}) ;;
            setCurrentStep 2
          else
            setError (Some "Failed to register session key") ;;
            setLoading false
        else if Nat.eqb currentStep 2 then
          let! success := inParent fundSessionKey in
          if success then
            setCompletedSteps (completedSteps ∪ {[2]}) ;;
            setTimeout 1500
          else
            setError (Some "Failed to fund session key") ;;
            setLoading false
        else ret tt)
       (fun err => setError (Some (errorText err))))
    (setLoading false).

Definition LAMPORTS_PER_SOL : positive := 1000000000.

(** [fetchBalance], which the effect on [sessionKeyPubkey] calls at once
    and then every two seconds for as long as an address is shown.  A
    balance in lamports is a whole number below 2^53, and for those the
    floating-point quotient compares with 0.01 as the exact quotient
    does. *)
Definition fetchBalance : M (Page Parent) unit :=
  let! page := get_state in
  match sessionKeyPubkey (dialog page) with
  | Some address =>
      if truthy (Some address) then
        try_catch
          (let! balance := inParent (getBalance address) in
           setSessionKeyBalance (QArith_base.Qmake balance LAMPORTS_PER_SOL))
          (fun error => ret tt)
      else ret tt
  | None => ret tt
  end.

(** The [onClick] of the button "Skip (Already Funded)". *)
Definition skipFunding : M (Page Parent) unit :=
  let! page := get_state in
  setCompletedSteps (completedSteps (dialog page) ∪ {[2]}) ;;
  setTimeout 500.

(** A pending timer fires. *)
Definition timerFires (i : nat) : M (Page Parent) unit :=
  clearTimer i ;;
  call onComplete ;;
  handleClose.

(** What can happen to the dialog: a click on one of its buttons, a
    pending timer firing, or a poll of the balance. *)
Inductive Action :=
  ClickNext | ClickCancel | ClickSkip | ClickDone | TimerFires (i : nat) | BalancePoll.

(** Whether the button is rendered and not disabled, the timer is
    pending, or the polling effect is running (it runs while an address
    is shown). *)
Definition enabled (d : State) (a : Action) : bool :=
  match a with
  | ClickNext => Nat.ltb (currentStep d) 3 && negb (loading d)
  | ClickCancel => negb (loading d)
  | ClickSkip =>
      Nat.eqb (currentStep d) 2
      && QArith_base.Qle_bool (QArith_base.Qmake 1 100) (sessionKeyBalance d)
      && negb (loading d)
  | ClickDone => Nat.eqb (currentStep d) 3 && bool_decide (2 ∈ completedSteps d)
  | TimerFires i => bool_decide (i < length (timers d))
  | BalancePoll => truthy (sessionKeyPubkey d)
  end.

Definition perform (a : Action) : M (Page Parent) unit :=
  let! page := get_state in
  if enabled (dialog page) a then
    match a with
    | ClickNext => handleNext
    | ClickCancel => handleClose
    | ClickSkip => skipFunding
    | ClickDone => handleClose
    | TimerFires i => timerFires i
    | BalancePoll => fetchBalance
    end
  else ret tt.

Fixpoint performAll (actions : list Action) : M (Page Parent) unit :=
  match actions with
  | [] => ret tt
  | a :: rest => perform a ;; performAll rest
  end.

End Dialog.
End SetupDialog.

(** ** More vocabulary *)

Module DialogVocabulary.
Import SetupDialog.
Section DialogVocabulary.
Context {Parent : Type}.
Variable createSessionKey : M Parent (option Keypair).
Variable registerSessionKey : M Parent bool.
Variable fundSessionKey : M Parent bool.

(** The world as the parent's functions see it. *)
Definition parentWorld (w : World (Page Parent)) : World Parent :=
  mkWorld (parent (component w)) (localStorage w) (trace w).

(** Whether the callback of step [k], run now, reports success: a key
    for step 0, true for steps 1 and 2.  A thrown error is no success. *)
Definition stepSucceeds (k : nat) (w : World (Page Parent)) : bool :=
  match k with
  | 0 => match fst (createSessionKey (parentWorld w)) with Ok (Some _) => true | _ => false end
  | 1 => match fst (registerSessionKey (parentWorld w)) with Ok true => true | _ => false end
  | 2 => match fst (fundSessionKey (parentWorld w)) with Ok true => true | _ => false end
  | _ => false
  end.

(** The steps done so far are the ones before the current step, and at
    most the current one besides; no click is in progress. *)
Definition orderly (d : State) : Prop :=
  currentStep d <= 2 /\
  loading d = false /\
  (forall i, i < currentStep d -> i ∈ completedSteps d) /\
  (forall i, i ∈ completedSteps d -> i <= currentStep d).

End DialogVocabulary.
End DialogVocabulary.


Section MoreVocabulary.
Context `{P : Platform}.

(** The one request [deriveSessionKey] makes to the wallet. *)
Definition signingRequest (wallet : AnchorWallet.t) : Event :=
  match AnchorWallet.signMessage wallet with
  | Some _ => SignMessage (AnchorWallet.publicKey wallet) SessionKey.messageBytes
  | None => SignTransaction (AnchorWallet.publicKey wallet) (SessionKey.fallbackTransaction wallet)
  end.

End MoreVocabulary.

(** ** More concrete worlds *)

Module Scenario.
Import Fixture.

Definition bob : PublicKey := mkPublicKey (utf8_encode "bob").

(** The hook after a reload: alice connected, her key in the cache,
    nothing in memory yet. *)
Definition reloaded : World UseSessionKey.State :=
  mkWorld (UseSessionKey.mkState (Some messageWallet) (Some alice) None None false false false)
    aliceCache [].

(** The same with a cache entry cut short. *)
Definition reloadedCorrupted : World UseSessionKey.State :=
  mkWorld (UseSessionKey.mkState (Some messageWallet) (Some alice) None None false false false)
    {[ SessionKey.cacheKey (P:=platform) alice := "[12,3" ]} [].

(** A decoder of two-byte player records. *)
Definition decodePosition (data : bytes) : result PlayerAccount :=
  match data with
  | [x; y] => Ok (mkPlayerAccount (Z.of_N (Byte.to_N x)) (Z.of_N (Byte.to_N y)) alice None)
  | _ => Throw (Error "Invalid account discriminator")
  end.

Definition rollupPush : Subscriptions.PushedAccount :=
  Subscriptions.mkPushedAccount delegationProgram [x07; x07].

(** The dialog on a page whose parent has no state of its own. *)
Definition opened : World (SetupDialog.Page unit) :=
  mkWorld (SetupDialog.mkPage SetupDialog.initial tt) ∅ [].

Definition keyGiven : M unit (option Keypair) := ret (Some derivedKeypair).
Definition keyRefused : M unit (option Keypair) := ret None.
Definition accepted : M unit bool := ret true.
Definition failing : M unit bool := throw (Error "Transaction simulation failed").

(** A ledger on which every address holds 0.02 SOL, and one that does not
    answer. *)
Definition funded : string -> M unit Z := fun _ => ret 20000000%Z.
Definition silent : string -> M unit Z := fun _ => throw (Error "failed to fetch").

(** The dialog on its last step with the close timer of "Skip" pending. *)
Definition skipping : World (SetupDialog.Page unit) :=
  mkWorld
    (SetupDialog.mkPage
       (SetupDialog.mkState 2 {[0; 1; 2]} false None (Some "alice")
          (QArith_base.Qmake 1 50) [500] [])
       tt)
    ∅ [].

End Scenario.

(** * Properties *)

(** ** Running the monad *)

Lemma bind_ok {S A B} (m : M S A) (k : A -> M S B) (w w' : World S) (a : A) :
  m w = (Ok a, w') -> bind m k w = k a w'.
Proof. intros H. unfold bind. now rewrite H. Qed.

Lemma JSON_stringify_truthy (bs : bytes) : truthy (Some (JSON_stringify bs)) = true.
Proof. reflexivity. Qed.

(** ** Session key derivation and the credential cache *)

Section SessionKeyProperties.
Import SessionKey.
Context `{P : Platform} {S : Type}.

Lemma deriveSessionKey_run (wallet : AnchorWallet.t) (w : World S) :
  deriveSessionKey wallet w =
  match requestSignature wallet w with
  | (Ok signature, w') => (Keypair_fromSeed (seedOf signature), w')
  | (Throw e, w') => (Throw e, w')
  end.
Proof. reflexivity. Qed.

Lemma Keypair_fromSeed_32 (seed : bytes) :
  length seed = 32 ->
  Keypair_fromSeed seed =
  Ok (mkKeypair (mkPublicKey (ed25519_getPublicKey seed)) (seed ++ ed25519_getPublicKey seed)).
Proof. intros H. unfold Keypair_fromSeed. now rewrite decide_True. Qed.

Lemma Keypair_fromSeed_inv (seed : bytes) (kp : Keypair) :
  Keypair_fromSeed seed = Ok kp ->
  length seed = 32 /\
  kp = mkKeypair (mkPublicKey (ed25519_getPublicKey seed)) (seed ++ ed25519_getPublicKey seed).
Proof.
  unfold Keypair_fromSeed. destruct (decide (length seed = 32)) as [Hlen|Hlen].
  - intros [= <-]. split; [exact Hlen | reflexivity].
  - discriminate.
Qed.

(** A key pair made from a seed reads back from its own secret key. *)
Lemma Keypair_fromSecretKey_fromSeed (seed : bytes) (kp : Keypair) :
  Keypair_fromSeed seed = Ok kp ->
  length (ed25519_getPublicKey seed) = 32 ->
  Keypair_fromSecretKey (secretKey kp) = Ok kp.
Proof.
  intros Hseed Hpub. apply Keypair_fromSeed_inv in Hseed as [Hlen ->]. simpl.
  unfold Keypair_fromSecretKey.
  rewrite decide_True by (rewrite length_app; lia).
  rewrite take_app_length' by (symmetry; exact Hlen).
  rewrite drop_app_length' by (symmetry; exact Hlen).
  now rewrite decide_True.
Qed.

(** The signature is what the signer answered: [signMessage]'s bytes when
    the wallet has that capability, else the signature of the signed
    pseudo-transaction. *)
Lemma requestSignature_answer (wallet : AnchorWallet.t) (w : World S) :
  fst (requestSignature wallet w) =
  match AnchorWallet.signMessage wallet with
  | Some signMessage => signMessage (trace w) messageBytes
  | None =>
      match AnchorWallet.signTransaction wallet (trace w) (fallbackTransaction wallet) with
      | Ok signed =>
          match Web3.signature signed with
          | Some s => Ok s
          | None => Throw (Error "Failed to get signature from wallet")
          end
      | Throw e => Throw e
      end
  end.
Proof.
  unfold requestSignature. destruct (AnchorWallet.signMessage wallet); [reflexivity|].
  unfold bind, interact.
  destruct (AnchorWallet.signTransaction wallet (trace w) (fallbackTransaction wallet));
    [|reflexivity].
  simpl. now destruct (Web3.signature a).
Qed.

(** C3. For a fixed primary identity, signature and origin, two runs of
    [deriveSessionKey] (whatever the state and history they start from)
    return the same key pair: the one built from the seed
    [sha256 (signature ++ messageBytes) [0:32]]. *)
Theorem deriveSessionKey_deterministic
  (wallet : AnchorWallet.t) (w1 w2 : World S) (signature : bytes) :
  fst (requestSignature wallet w1) = Ok signature ->
  fst (requestSignature wallet w2) = Ok signature ->
  length (sha256 (signature ++ utf8_encode messageText)) = 32 ->
  let seed := take 32 (sha256 (signature ++ utf8_encode messageText)) in
  let keypair := mkKeypair (mkPublicKey (ed25519_getPublicKey seed))
                   (seed ++ ed25519_getPublicKey seed) in
  fst (deriveSessionKey wallet w1) = Ok keypair /\
  fst (deriveSessionKey wallet w2) = Ok keypair.
Proof.
  intros H1 H2 Hlen seed keypair.
  assert (Hseed : Keypair_fromSeed seed = Ok keypair).
  { apply Keypair_fromSeed_32. subst seed. rewrite length_take. lia. }
  rewrite !deriveSessionKey_run.
  destruct (requestSignature wallet w1) as [[s1|e1] w1'];
    destruct (requestSignature wallet w2) as [[s2|e2] w2'];
    simpl in H1, H2; try discriminate.
  injection H1 as ->. injection H2 as ->. simpl. now split.
Qed.

Lemma loadCached_store (walletPubkey : PublicKey) (seed : bytes) (kp : Keypair) (w : World S) :
  Keypair_fromSeed seed = Ok kp ->
  length (ed25519_getPublicKey seed) = 32 ->
  bytes_of_JSON (JSON_stringify (secretKey kp)) = Ok (secretKey kp) ->
  loadCached walletPubkey (snd (storeCached walletPubkey kp w)) =
  (Ok (Some kp), snd (storeCached walletPubkey kp w)).
Proof.
  intros Hseed Hpub Hjson.
  unfold loadCached, storeCached, localStorage_setItem, localStorage_getItem, bind. simpl.
  rewrite lookup_insert_eq. rewrite JSON_stringify_truthy.
  unfold try_catch, bind, lift, ret. rewrite Hjson.
  now rewrite (Keypair_fromSecretKey_fromSeed seed kp Hseed Hpub).
Qed.

(** C7. Storing a key pair in the cache and loading it for the same
    identity gives back the same secret and public bytes (and
    [getOrCreateSessionKey] returns it without asking the wallet); after
    [clearSessionKey] loading finds nothing and [hasSessionKey] is false. *)
Theorem cache_round_trip
  (wallet : AnchorWallet.t) (walletPubkey : PublicKey) (seed : bytes) (kp : Keypair)
  (w : World S) :
  Keypair_fromSeed seed = Ok kp ->
  length (ed25519_getPublicKey seed) = 32 ->
  bytes_of_JSON (JSON_stringify (secretKey kp)) = Ok (secretKey kp) ->
  let stored := snd (storeCached walletPubkey kp w) in
  let cleared := snd (clearSessionKey walletPubkey w) in
  (exists kp', fst (loadCached walletPubkey stored) = Ok (Some kp') /\
               secretKey kp' = secretKey kp /\ publicKey kp' = publicKey kp) /\
  getOrCreateSessionKey wallet walletPubkey stored = (Ok kp, stored) /\
  fst (loadCached walletPubkey cleared) = Ok None /\
  fst (hasSessionKey walletPubkey cleared) = Ok false.
Proof.
  intros Hseed Hpub Hjson stored cleared.
  pose proof (loadCached_store walletPubkey seed kp w Hseed Hpub Hjson) as Hload.
  fold stored in Hload.
  split; [|split; [|split]].
  - exists kp. now rewrite Hload.
  - unfold getOrCreateSessionKey. now rewrite (bind_ok _ _ _ _ _ Hload).
  - subst cleared. unfold loadCached, clearSessionKey, localStorage_removeItem,
      localStorage_getItem, bind. simpl. now rewrite lookup_delete_eq.
  - subst cleared. unfold hasSessionKey, clearSessionKey, localStorage_removeItem,
      localStorage_getItem, bind, ret. simpl. rewrite lookup_delete_eq.
    now rewrite bool_decide_eq_false_2 by (intros H; now apply H).
Qed.

Lemma loadCached_corrupted (walletPubkey : PublicKey) (text : string) (w : World S) :
  localStorage w !! cacheKey walletPubkey = Some text ->
  is_ok (deserialize text) = false ->
  loadCached walletPubkey w = (Ok None, w).
Proof.
  intros Hentry Hbad.
  unfold loadCached, localStorage_getItem, bind. rewrite Hentry.
  destruct (truthy (Some text)); [|reflexivity].
  unfold try_catch, bind, lift, ret. unfold deserialize in Hbad.
  destruct (bytes_of_JSON text) as [secretKey|e]; [|reflexivity].
  destruct (Keypair_fromSecretKey secretKey); [discriminate|reflexivity].
Qed.

(** C8. When the cached entry does not deserialize into a valid key pair,
    loading behaves as if there were no entry, and
    [getOrCreateSessionKey] goes on exactly as the derive-and-store path:
    its outcome is the outcome of [deriveSessionKey], never the
    deserialization error, and a derived key replaces the bad entry. *)
Theorem corrupted_cache_rederives
  (wallet : AnchorWallet.t) (walletPubkey : PublicKey) (text : string) (w : World S) :
  localStorage w !! cacheKey walletPubkey = Some text ->
  is_ok (deserialize text) = false ->
  loadCached walletPubkey w = (Ok None, w) /\
  getOrCreateSessionKey wallet walletPubkey w =
    (let! sessionKey := deriveSessionKey wallet in
     storeCached walletPubkey sessionKey ;; ret sessionKey) w /\
  fst (getOrCreateSessionKey wallet walletPubkey w) = fst (deriveSessionKey wallet w) /\
  (forall k, fst (deriveSessionKey wallet w) = Ok k ->
     localStorage (snd (getOrCreateSessionKey wallet walletPubkey w)) !! cacheKey walletPubkey
     = Some (JSON_stringify (secretKey k))).
Proof.
  intros Hentry Hbad.
  pose proof (loadCached_corrupted walletPubkey text w Hentry Hbad) as Hload.
  assert (Hrun : getOrCreateSessionKey wallet walletPubkey w =
    (let! sessionKey := deriveSessionKey wallet in
     storeCached walletPubkey sessionKey ;; ret sessionKey) w).
  { unfold getOrCreateSessionKey. now rewrite (bind_ok _ _ _ _ _ Hload). }
  split; [exact Hload|]. split; [exact Hrun|].
  rewrite Hrun. unfold bind.
  destruct (deriveSessionKey wallet w) as [[k|e] w']; simpl.
  - split; [reflexivity|]. intros k' [= <-]. apply lookup_insert_eq.
  - split; [reflexivity|]. intros k' [=].
Qed.

End SessionKeyProperties.

(** ** Events and identity along a run *)

Section Steady.
Context {S X : Type} (proj : S -> X) (Q : Event -> Prop).

Lemma steady_ret {A} (a : A) : steady proj Q (ret a).
Proof. intros w. split; [reflexivity|]. exists []. now rewrite app_nil_r. Qed.

Lemma steady_throw {A} (e : JsError) : steady proj Q (@throw S A e).
Proof. intros w. split; [reflexivity|]. exists []. now rewrite app_nil_r. Qed.

Lemma steady_lift {A} (r : result A) : steady proj Q (@lift S A r).
Proof. intros w. split; [reflexivity|]. exists []. now rewrite app_nil_r. Qed.

Lemma steady_get_state : steady proj Q get_state.
Proof. intros w. split; [reflexivity|]. exists []. now rewrite app_nil_r. Qed.

Lemma steady_getItem (k : string) : steady proj Q (localStorage_getItem k).
Proof. intros w. split; [reflexivity|]. exists []. now rewrite app_nil_r. Qed.

Lemma steady_setItem (k v : string) : steady proj Q (localStorage_setItem k v).
Proof. intros w. split; [reflexivity|]. exists []. now rewrite app_nil_r. Qed.

Lemma steady_removeItem (k : string) : steady proj Q (localStorage_removeItem k).
Proof. intros w. split; [reflexivity|]. exists []. now rewrite app_nil_r. Qed.

Lemma steady_modify (f : S -> S) :
  (forall s, proj (f s) = proj s) -> steady proj Q (modify_state f).
Proof. intros Hf w. split; [apply Hf|]. exists []. now rewrite app_nil_r. Qed.

Lemma steady_interact {A} (e : Event) (answer : list Event -> result A) :
  Q e -> steady proj Q (interact e answer).
Proof. intros He w. split; [reflexivity|]. exists [e]. split; [reflexivity|]. now constructor. Qed.

Lemma steady_emit (e : Event) : Q e -> steady proj Q (emit e).
Proof. intros He w. split; [reflexivity|]. exists [e]. split; [reflexivity|]. now constructor. Qed.

Lemma steady_bind {A B} (m : M S A) (k : A -> M S B) :
  steady proj Q m -> (forall a, steady proj Q (k a)) -> steady proj Q (bind m k).
Proof.
  intros Hm Hk w. unfold bind.
  destruct (Hm w) as (Hp1 & evs1 & Ht1 & Hq1).
  destruct (m w) as [[a|e] w1]; simpl in *.
  - destruct (Hk a w1) as (Hp2 & evs2 & Ht2 & Hq2).
    split; [now rewrite Hp2|].
    exists (evs1 ++ evs2). rewrite Ht2, Ht1, app_assoc.
    split; [reflexivity | now apply Forall_app].
  - split; [exact Hp1|]. now exists evs1.
Qed.

Lemma steady_try_catch {A} (m : M S A) (h : JsError -> M S A) :
  steady proj Q m -> (forall e, steady proj Q (h e)) -> steady proj Q (try_catch m h).
Proof.
  intros Hm Hh w. unfold try_catch.
  destruct (Hm w) as (Hp1 & evs1 & Ht1 & Hq1).
  destruct (m w) as [[a|e] w1]; simpl in *.
  - split; [exact Hp1|]. now exists evs1.
  - destruct (Hh e w1) as (Hp2 & evs2 & Ht2 & Hq2).
    split; [now rewrite Hp2|].
    exists (evs1 ++ evs2). rewrite Ht2, Ht1, app_assoc.
    split; [reflexivity | now apply Forall_app].
Qed.

Lemma steady_try_finally {A} (m : M S A) (f : M S unit) :
  steady proj Q m -> steady proj Q f -> steady proj Q (try_finally m f).
Proof.
  intros Hm Hf w. unfold try_finally.
  destruct (Hm w) as (Hp1 & evs1 & Ht1 & Hq1).
  destruct (m w) as [r w1]; simpl in *.
  destruct (Hf w1) as (Hp2 & evs2 & Ht2 & Hq2).
  destruct (f w1) as [[u|e] w2]; simpl in *.
  all: split; [now rewrite Hp2|].
  all: exists (evs1 ++ evs2); rewrite Ht2, Ht1, app_assoc.
  all: split; [reflexivity | now apply Forall_app].
Qed.

End Steady.

Create HintDb steady discriminated.
#[export] Hint Resolve steady_ret steady_throw steady_lift steady_get_state steady_getItem
  steady_setItem steady_removeItem : steady.

(** One step of a proof that a run is steady: follow the structure of the
    code, leaf by leaf. *)
Ltac steady_step :=
  match goal with
  | |- forall _, _ => intro
  | |- steady _ _ (match ?x with _ => _ end) => destruct x
  | |- steady _ _ (modify_state _) => apply steady_modify; reflexivity
  | |- steady _ _ (interact _ _) => apply steady_interact; exact I
  | |- steady _ _ (emit _) => apply steady_emit; exact I
  | |- steady _ _ (toast _ _) => apply steady_emit; exact I
  | |- steady _ _ _ => solve [auto with steady]
  | |- steady _ _ (bind _ _) => apply steady_bind
  | |- steady _ _ (try_catch _ _) => apply steady_try_catch
  | |- steady _ _ (try_finally _ _) => apply steady_try_finally
  end.

Section KeyStep.
Import SessionKey UseSessionKey HookVocabulary.
Context `{P : Platform}.

(** Deriving or loading a key talks to the wallet only. *)
Lemma getOrCreateSessionKey_steady {S X} (proj : S -> X)
  (wallet : AnchorWallet.t) (walletPubkey : PublicKey) :
  steady proj offLedger (getOrCreateSessionKey (S:=S) wallet walletPubkey).
Proof.
  unfold getOrCreateSessionKey, loadCached, storeCached, deriveSessionKey, requestSignature.
  repeat steady_step.
Qed.

Lemma createSessionKey_steady : steady identity offLedger createSessionKey.
Proof.
  unfold createSessionKey, setLoading, setSessionKey, setSessionWallet.
  repeat steady_step. apply getOrCreateSessionKey_steady.
Qed.

Lemma obtainKey_steady (held : option Keypair) : steady identity offLedger (obtainKey held).
Proof. destruct held; [apply steady_ret | apply createSessionKey_steady]. Qed.

End KeyStep.

(** ** The session lifecycle hook *)

Section HookProperties.
Import SessionKey UseSessionKey HookVocabulary.
Context `{P : Platform} (net : Network).

Lemma getCurrentDelegationStatus_connected
  (w : World State) (wal : AnchorWallet.t) (pk : PublicKey) :
  wallet (component w) = Some wal ->
  publicKey (component w) = Some pk ->
  getCurrentDelegationStatus net w =
  (Ok (liveDelegated net (trace w) pk),
   mkWorld (component w) (localStorage w)
     (trace w ++ [GetAccountInfo Devnet (getPlayerPda pk)])).
Proof.
  intros Hw Hpk. unfold getCurrentDelegationStatus, bind, get_state. simpl.
  rewrite Hw, Hpk.
  unfold try_catch, bind, getAccountInfo, interact, liveDelegated. simpl.
  destruct (net_getAccountInfo net (trace w) Devnet (getPlayerPda pk)) as [[info|]|e];
    reflexivity.
Qed.

Lemma getCurrentDelegationStatus_disconnected (w : World State) :
  wallet (component w) = None \/ publicKey (component w) = None ->
  getCurrentDelegationStatus net w = (Ok false, w).
Proof.
  intros H. unfold getCurrentDelegationStatus, bind, get_state. simpl.
  destruct H as [-> | ->]; [reflexivity|].
  destruct (wallet (component w)); reflexivity.
Qed.


(** The run of [revokeSessionKey] for a connected identity, by the answer
    to its submission. *)
Lemma revokeSessionKey_run (w : World State) (wal : AnchorWallet.t) (pk : PublicKey) :
  wallet (component w) = Some wal ->
  publicKey (component w) = Some pk ->
  let target := getConnectionForAccount (liveDelegated net (trace w) pk) in
  let submission := Rpc target (AnchorWallet.publicKey wal) revokeSessionKey_call in
  let history := trace w ++ [GetAccountInfo Devnet (getPlayerPda pk)] in
  let w' := snd (revokeSessionKey net w) in
  match net_rpc net history target (AnchorWallet.publicKey wal) revokeSessionKey_call with
  | Ok _ =>
      fst (revokeSessionKey net w) = Ok true /\ cleared pk w' /\
      exists title, trace w' = history ++ [submission; Toast toast_success title]
  | Throw _ =>
      fst (revokeSessionKey net w) = Ok false /\ kept w w' /\
      exists title, trace w' = history ++ [submission; Toast toast_error title]
  end.
Proof.
  intros Hw Hpk target submission history w'. subst w'.
  remember (revokeSessionKey net w) as run eqn:Hrun.
  unfold revokeSessionKey in Hrun.
  unfold bind at 1 in Hrun. unfold get_state at 1 in Hrun. simpl in Hrun.
  rewrite Hw, Hpk in Hrun.
  unfold bind at 1 in Hrun. unfold setLoading at 1, modify_state at 1 in Hrun.
  cbn [fst snd] in Hrun. unfold try_finally, try_catch in Hrun.
  erewrite bind_ok in Hrun; cycle 1.
  { apply (getCurrentDelegationStatus_connected _ wal pk); simpl; assumption. }
  unfold bind at 1 in Hrun. unfold rpc, interact at 1 in Hrun.
  cbn [trace component localStorage] in Hrun.
  fold target in Hrun. fold history in Hrun.
  destruct (net_rpc net history target (AnchorWallet.publicKey wal) revokeSessionKey_call)
    as [tx|e]; simpl in Hrun; subst run; simpl.
  - split; [reflexivity|]. split.
    + unfold cleared. simpl. split; [apply lookup_delete_eq | now split].
    + eexists. now rewrite <- app_assoc.
  - split; [reflexivity|]. split.
    + unfold kept. simpl. now repeat split.
    + eexists. now rewrite <- app_assoc.
Qed.

(** C1, as the code has it. For a connected identity, the cache entry,
    the in-memory session key and the session wallet are cleared when the
    on-chain revoke submission succeeds; when the submission fails they
    are left as they were and the call returns false. *)
Theorem revoke_clears_when_submission_succeeds
  (w : World State) (wal : AnchorWallet.t) (pk : PublicKey) :
  wallet (component w) = Some wal ->
  publicKey (component w) = Some pk ->
  let target := getConnectionForAccount (liveDelegated net (trace w) pk) in
  let history := trace w ++ [GetAccountInfo Devnet (getPlayerPda pk)] in
  match net_rpc net history target (AnchorWallet.publicKey wal) revokeSessionKey_call with
  | Ok _ =>
      fst (revokeSessionKey net w) = Ok true /\ cleared pk (snd (revokeSessionKey net w))
  | Throw _ =>
      fst (revokeSessionKey net w) = Ok false /\ kept w (snd (revokeSessionKey net w))
  end.
Proof.
  intros Hw Hpk target history.
  pose proof (revokeSessionKey_run w wal pk Hw Hpk) as Hrun. cbv zeta in Hrun.
  fold target history in Hrun.
  destruct (net_rpc net history target (AnchorWallet.publicKey wal) revokeSessionKey_call);
    destruct Hrun as (H1 & H2 & _); now split.
Qed.

(** The run of [registerSessionKey] for a connected identity, by the
    outcome of its key step. *)
Lemma registerSessionKey_run (w : World State) (wal : AnchorWallet.t) (pk : PublicKey) :
  wallet (component w) = Some wal ->
  publicKey (component w) = Some pk ->
  let keyStep := obtainKey (sessionKey (component w)) (snd (setLoading true w)) in
  let w1 := snd keyStep in
  match fst keyStep with
  | Ok (Some key) =>
      let target := getConnectionForAccount (liveDelegated net (trace w1) pk) in
      exists kind title,
        trace (snd (registerSessionKey net w)) =
        trace w1 ++ [GetAccountInfo Devnet (getPlayerPda pk);
                     Rpc target (AnchorWallet.publicKey wal)
                       (registerSessionKey_call (Web3.publicKey key));
                     Toast kind title]
  | Ok None =>
      fst (registerSessionKey net w) = Ok false /\
      trace (snd (registerSessionKey net w)) = trace w1
  | Throw _ =>
      fst (registerSessionKey net w) = Ok false /\
      exists title, trace (snd (registerSessionKey net w)) =
                    trace w1 ++ [Toast toast_error title]
  end.
Proof.
  intros Hw Hpk keyStep w1.
  destruct (obtainKey_steady (sessionKey (component w)) (snd (setLoading true w)))
    as (Hid & _). fold keyStep in Hid. fold w1 in Hid. simpl in Hid.
  unfold identity in Hid. rewrite Hw, Hpk in Hid. injection Hid as Hw1 Hpk1.
  remember (registerSessionKey net w) as run eqn:Hrun.
  unfold registerSessionKey in Hrun.
  unfold bind at 1 in Hrun. unfold get_state at 1 in Hrun. simpl in Hrun.
  rewrite Hw, Hpk in Hrun.
  unfold bind at 1 in Hrun.
  change (setLoading true w) with (Ok tt, snd (setLoading true w)) in Hrun.
  cbn iota in Hrun. unfold try_finally, try_catch in Hrun.
  unfold bind at 1 in Hrun.
  change (match sessionKey (component w) with
          | Some key => ret (Some key)
          | None => createSessionKey
          end) with (obtainKey (sessionKey (component w))) in Hrun.
  fold keyStep in Hrun. subst w1.
  destruct keyStep as [[[key|]|e] w1]; cbn [fst snd] in *.
  - erewrite bind_ok in Hrun; cycle 1.
    { apply (getCurrentDelegationStatus_connected _ wal pk); assumption. }
    unfold bind at 1 in Hrun. unfold rpc, interact at 1 in Hrun.
    cbn [trace component localStorage] in Hrun.
    destruct (net_rpc net _ _ (AnchorWallet.publicKey wal) _) as [tx|e];
      simpl in Hrun; subst run; simpl.
    + eexists _, _. now rewrite <- !app_assoc.
    + eexists _, _. now rewrite <- !app_assoc.
  - simpl in Hrun. subst run. now split.
  - simpl in Hrun. subst run. split; [reflexivity|]. now eexists.
Qed.

Lemma target_of_live_read (history : list Event) (pk : PublicKey) :
  getConnectionForAccount (liveDelegated net history pk) =
  match net_getAccountInfo net history Devnet (getPlayerPda pk) with
  | Ok (Some info) => if differs (owner info) PROGRAM_ID then EphemeralRollup else Devnet
  | _ => Devnet
  end.
Proof.
  unfold liveDelegated.
  destruct (net_getAccountInfo net history Devnet (getPlayerPda pk)) as [[info|]|e];
    reflexivity.
Qed.

(** A key created by the key step is the one [getOrCreateSessionKey]
    returned. *)
Lemma createSessionKey_key
  (w w1 : World State) (wal : AnchorWallet.t) (pk : PublicKey) (key : Keypair) :
  wallet (component w) = Some wal ->
  publicKey (component w) = Some pk ->
  createSessionKey w = (Ok (Some key), w1) ->
  fst (getOrCreateSessionKey wal pk (snd (setLoading true w))) = Ok key.
Proof.
  intros Hw Hpk Hrun. unfold createSessionKey in Hrun.
  unfold bind at 1 in Hrun. unfold get_state at 1 in Hrun. cbv beta iota in Hrun.
  rewrite Hw, Hpk in Hrun.
  unfold bind at 1 in Hrun.
  change (setLoading true w) with (Ok tt, snd (setLoading true w)) in Hrun.
  cbv beta iota in Hrun.
  unfold try_finally, try_catch in Hrun. unfold bind at 1 in Hrun.
  destruct (getOrCreateSessionKey wal pk (snd (setLoading true w))) as [[k|e] w2];
    simpl in Hrun.
  - now injection Hrun as -> _.
  - discriminate.
Qed.

(** C5, as the code has it. With a connected identity, every
    [registerSessionKey] call begins with its key step, which touches no
    ledger.  When that step has a key (the one the hook holds, else the
    one [getOrCreateSessionKey] gives), the call reads the account's
    owner on the primary ledger at that moment, and then submits the
    register instruction carrying the session public key to the rollup
    when the read shows an owner other than the program, to the primary
    ledger otherwise.  The flag cached in the hook's state plays no part.
    When the key step gives no key, the call returns false and nothing is
    read or submitted. *)
Theorem register_submits_to_live_owner
  (w : World State) (wal : AnchorWallet.t) (pk : PublicKey) :
  wallet (component w) = Some wal ->
  publicKey (component w) = Some pk ->
  let pda := getPlayerPda pk in
  let keyStep := obtainKey (sessionKey (component w)) (snd (setLoading true w)) in
  let w1 := snd keyStep in
  let w' := snd (registerSessionKey net w) in
  (exists keyEvents, trace w1 = trace w ++ keyEvents /\ Forall offLedger keyEvents) /\
  match fst keyStep with
  | Ok (Some key) =>
      match sessionKey (component w) with
      | Some held => key = held /\ trace w1 = trace w
      | None =>
          fst (getOrCreateSessionKey wal pk (snd (setLoading true (snd (setLoading true w)))))
          = Ok key
      end /\
      let target :=
        match net_getAccountInfo net (trace w1) Devnet pda with
        | Ok (Some info) =>
            if differs (owner info) PROGRAM_ID then EphemeralRollup else Devnet
        | _ => Devnet
        end in
      exists kind title,
        trace w' =
        trace w1 ++ [GetAccountInfo Devnet pda;
                     Rpc target (AnchorWallet.publicKey wal)
                       (registerSessionKey_call (Web3.publicKey key));
                     Toast kind title]
  | _ =>
      fst (registerSessionKey net w) = Ok false /\ Forall offLedger (added w w')
  end.
Proof.
  intros Hw Hpk pda keyStep w1 w'.
  destruct (obtainKey_steady (sessionKey (component w)) (snd (setLoading true w)))
    as (_ & evs & Ht & Hq).
  fold keyStep in Ht. fold w1 in Ht. change (trace (snd (setLoading true w))) with (trace w) in Ht.
  split; [now exists evs|].
  pose proof (registerSessionKey_run w wal pk Hw Hpk) as Hrun. cbv zeta in Hrun.
  fold keyStep w1 w' in Hrun. subst pda.
  destruct (fst keyStep) as [[key|]|e] eqn:Hstep.
  - split.
    + destruct (sessionKey (component w)) as [held|] eqn:Hheld.
      * subst w1 keyStep. simpl in *. injection Hstep as ->. now split.
      * apply (createSessionKey_key _ w1); [assumption..|].
        change (createSessionKey (snd (setLoading true w))) with keyStep.
        subst w1. rewrite <- Hstep. now destruct keyStep.
    + now rewrite <- target_of_live_read.
  - destruct Hrun as (Hr & Htr). split; [exact Hr|].
    unfold added. now rewrite Htr, Ht, drop_app_length.
  - destruct Hrun as (Hr & title & Htr). split; [exact Hr|].
    unfold added. rewrite Htr, Ht, <- app_assoc, drop_app_length.
    apply Forall_app. split; [exact Hq|]. now repeat constructor.
Qed.


End HookProperties.

(** ** The session wallet *)

Section SessionWalletProperties.
Import SessionKey.
Context `{P : Platform}.

Lemma js_array_get_set_eq {A} (i : nat) (v : A) (l : list (option A)) :
  js_array_get (js_array_set i v l) i = Some v.
Proof.
  unfold js_array_get, js_array_set. destruct (decide (i < length l)) as [Hlt|Hge].
  - now rewrite list_lookup_insert_eq.
  - rewrite lookup_app_r by lia.
    rewrite lookup_app_r by (rewrite length_replicate; lia).
    rewrite length_replicate. now replace (i - length l - (i - length l)) with 0 by lia.
Qed.

Lemma js_array_get_set_ne {A} (i j : nat) (v : A) (l : list (option A)) :
  j <> i -> js_array_get (js_array_set i v l) j = js_array_get l j.
Proof.
  intros Hne. unfold js_array_get, js_array_set.
  destruct (decide (i < length l)) as [Hlt|Hge].
  - now rewrite list_lookup_insert_ne.
  - destruct (decide (j < length l)) as [Hj|Hj].
    + now rewrite lookup_app_l.
    + rewrite (lookup_ge_None_2 l j) by lia.
      rewrite lookup_app_r by lia.
      destruct (decide (j - length l < i - length l)) as [Hin|Hout].
      * rewrite lookup_app_l by (rewrite length_replicate; lia).
        now rewrite lookup_replicate_2.
      * rewrite lookup_app_r by (rewrite length_replicate; lia).
        rewrite length_replicate.
        destruct (j - length l - (i - length l)) as [|n] eqn:Hn; [lia|reflexivity].
Qed.

Lemma partialSign_feePayer (tx : Transaction) (signer : Keypair) :
  feePayer (snd (partialSign tx signer)) = feePayer tx.
Proof.
  unfold partialSign. destruct (compileMessage tx) as [[signedKeys signData]|e]; [|reflexivity].
  destruct (decide (map fst (signatures tx) = signedKeys));
    destruct (addSignature _ _ _); reflexivity.
Qed.

Lemma addSignature_In (pk : PublicKey) (sig : bytes)
  (l l' : list (PublicKey * option bytes)) :
  addSignature pk sig l = Some l' -> In (pk, Some sig) l'.
Proof.
  revert l'. induction l as [|[k s] l IH]; intros l'; simpl; [discriminate|].
  destruct (decide (pk = k)) as [->|Hne].
  - intros [= <-]. now left.
  - destruct (addSignature pk sig l) as [r|]; simpl; [|discriminate].
    intros [= <-]. right. now apply IH.
Qed.

(** C6. [signTransaction] never makes the primary identity the fee payer:
    the fee payer after the call is the one before it or the session
    public key.  For a legacy transaction it is the session public key,
    set before signing: the message that is compiled and signed is that
    of the transaction with the session key as fee payer. *)
Theorem signTransaction_fee_payer (this : SessionWallet) (tx : AnyTransaction) :
  Web3.publicKey (sessionKey this) <> AnchorWallet.publicKey (mainWallet this) ->
  let sessionPk := Web3.publicKey (sessionKey this) in
  let primaryPk := AnchorWallet.publicKey (mainWallet this) in
  let after := snd (signTransaction this tx) in
  (feePayerOf after = feePayerOf tx \/ feePayerOf after = Some sessionPk) /\
  (feePayerOf after = Some primaryPk -> feePayerOf tx = Some primaryPk) /\
  match tx with
  | Legacy ltx =>
      feePayerOf after = Some sessionPk /\
      feePayerOf after <> Some primaryPk /\
      signTransaction this tx =
        (fst (partialSign (set_feePayer sessionPk ltx) (sessionKey this)),
         Legacy (snd (partialSign (set_feePayer sessionPk ltx) (sessionKey this)))) /\
      (forall signedKeys signData ltx',
         compileMessage (set_feePayer sessionPk ltx) = Ok (signedKeys, signData) ->
         signTransaction this tx = (Ok tt, Legacy ltx') ->
         In (sessionPk, Some (ed25519_sign signData (secretKey (sessionKey this))))
            (signatures ltx'))
  | Versioned vtx => feePayerOf after = feePayerOf tx
  end.
Proof.
  intros Hne sessionPk primaryPk after.
  assert (Hcases : match tx with
                   | Legacy _ => feePayerOf after = Some sessionPk
                   | Versioned _ => feePayerOf after = feePayerOf tx
                   end).
  { subst after. destruct tx as [ltx|vtx]; simpl.
    - destruct (partialSign _ _) as [r ltx2] eqn:Hsign. simpl.
      change ltx2 with (snd (r, ltx2)). rewrite <- Hsign.
      now rewrite partialSign_feePayer.
    - unfold versionedSign. now destruct (findIndex _ _). }
  split; [|split].
  - destruct tx; [now right | now left].
  - destruct tx; [|now rewrite Hcases].
    rewrite Hcases. intros [= Heq]. now destruct Hne.
  - destruct tx as [ltx|vtx]; [|exact Hcases].
    split; [exact Hcases|]. split; [|split].
    + rewrite Hcases. intros [= Heq]. now destruct Hne.
    + simpl. fold sessionPk. now destruct (partialSign _ _).
    + intros signedKeys signData ltx' Hcompile. simpl. fold sessionPk.
      unfold partialSign. rewrite Hcompile.
      destruct (addSignature _ _ _) as [sigs|] eqn:Hadd; [|discriminate].
      intros [= <-]. simpl. now apply addSignature_In in Hadd.
Qed.

(** C9. On a versioned transaction [signTransaction] leaves the message,
    and with it the fee payer, as it was; the only thing written is the
    session key's signature, into the session key's signature slot.  When
    the session key is not a required signer nothing is written at all. *)
Theorem signTransaction_versioned_frame (this : SessionWallet) (vtx : VersionedTransaction) :
  exists vtx',
    snd (signTransaction this (Versioned vtx)) = Versioned vtx' /\
    v_message vtx' = v_message vtx /\
    feePayerOf (Versioned vtx') = feePayerOf (Versioned vtx) /\
    match findIndex (Web3.publicKey (sessionKey this))
            (take (numRequiredSignatures (v_message vtx))
               (staticAccountKeys (v_message vtx))) with
    | Some slot =>
        fst (signTransaction this (Versioned vtx)) = Ok tt /\
        js_array_get (v_signatures vtx') slot =
          Some (ed25519_sign (serializeMessage (v_message vtx))
                  (secretKey (sessionKey this))) /\
        (forall j, j <> slot ->
           js_array_get (v_signatures vtx') j = js_array_get (v_signatures vtx) j)
    | None => vtx' = vtx
    end.
Proof.
  simpl. unfold versionedSign.
  destruct (findIndex _ _) as [slot|]; simpl.
  - eexists. split; [reflexivity|]. simpl. split; [reflexivity|]. split; [reflexivity|].
    split; [reflexivity|]. split.
    + apply js_array_get_set_eq.
    + intros j Hj. now apply js_array_get_set_ne.
  - exists vtx. now repeat split.
Qed.

End SessionWalletProperties.

(** ** The dual-ledger view *)

Section GameBoardProperties.
Import GameBoard.
Context `{P : Platform} (net : Network).

Lemma differs_spec (a b : PublicKey) :
  (forall k1 k2, toBase58 k1 = toBase58 k2 -> k1 = k2) ->
  differs a b = true <-> a <> b.
Proof.
  intros Hinj. unfold differs. rewrite negb_true_iff, String.eqb_neq.
  split; intros H Heq; apply H; [now rewrite Heq | now apply Hinj].
Qed.

(** The run of [fetchPlayerData] for a connected identity: the new state
    and the interactions, by the answer of the primary ledger. *)
Lemma fetchPlayerData_run
  (w : World State) (wal : AnchorWallet.t) (pk : PublicKey) (base : Connection) :
  wallet (component w) = Some wal ->
  publicKey (component w) = Some pk ->
  baseConnection (component w) = Some base ->
  let pda := getPlayerPda pk in
  let w' := snd (fetchPlayerData net w) in
  match net_getAccountInfo net (trace w) base pda with
  | Ok None =>
      basePlayer (component w') = None /\ erPlayer (component w') = None /\
      isDelegated (component w') = false /\
      added w w' = [GetAccountInfo base pda]
  | Ok (Some info) =>
      let delegated := differs (owner info) PROGRAM_ID in
      isDelegated (component w') = delegated /\
      (delegated = false -> erPlayer (component w') = None) /\
      added w w' =
        [GetAccountInfo base pda; FetchPlayer base pda] ++
        match (if delegated then erConnection (component w) else None) with
        | Some er => [RequestAirdrop er pda 1; FetchPlayer er pda]
        | None => []
        end
  | Throw _ =>
      basePlayer (component w') = None /\ erPlayer (component w') = None /\
      isDelegated (component w') = false /\
      added w w' = [GetAccountInfo base pda]
  end.
Proof.
  intros Hw Hpk Hbase pda w'. subst w'. unfold added.
  remember (fetchPlayerData net w) as run eqn:Hrun.
  unfold fetchPlayerData in Hrun.
  unfold bind at 1 in Hrun. unfold get_state at 1 in Hrun. cbv beta iota in Hrun.
  rewrite Hw, Hpk, Hbase in Hrun.
  unfold try_catch at 1 in Hrun. unfold bind at 1 in Hrun.
  unfold getAccountInfo, interact at 1 in Hrun.
  fold pda in Hrun.
  destruct (net_getAccountInfo net (trace w) base pda) as [[info|]|e].
  - cbv zeta.
    unfold bind at 1 in Hrun. unfold setIsDelegated at 1, modify_state at 1 in Hrun.
    cbn [component localStorage trace] in Hrun.
    unfold bind at 1 in Hrun. unfold try_catch at 1 in Hrun.
    unfold bind at 1 in Hrun. unfold fetchPlayer at 1, interact at 1 in Hrun.
    cbn [component localStorage trace] in Hrun.
    destruct (differs (owner info) PROGRAM_ID) eqn:Hd;
      destruct (erConnection (component w)) as [er|];
      destruct (net_fetchPlayer net _ base pda) as [pa|e1];
      simpl in Hrun.
    all: try (subst run; simpl; rewrite <- ?app_assoc; rewrite drop_app_length;
              now repeat split).
    all: unfold try_catch, bind, requestAirdrop, fetchPlayer, interact, ret in Hrun;
      simpl in Hrun.
    all: destruct (net_requestAirdrop net _ er pda 1); simpl in Hrun;
      destruct (net_fetchPlayer net _ er pda);
      simpl in Hrun; subst run; simpl;
      rewrite <- ?app_assoc; rewrite drop_app_length; now repeat split.
  - simpl in Hrun. subst run. simpl. rewrite drop_app_length. now repeat split.
  - simpl in Hrun. subst run. simpl. rewrite drop_app_length. now repeat split.
Qed.

(** C4. Refreshing the entity of a connected identity reads the account
    on the primary ledger first.  If the account is absent, both
    snapshots are cleared and the delegation flag is false.  If it is
    present, the flag is true exactly when its owner is not the program,
    and the rollup is contacted only when the flag is true: otherwise the
    rollup snapshot is cleared. *)
Theorem fetchPlayerData_delegation
  (w : World State) (wal : AnchorWallet.t) (pk : PublicKey) :
  wallet (component w) = Some wal ->
  publicKey (component w) = Some pk ->
  baseConnection (component w) = Some Devnet ->
  erConnection (component w) = Some EphemeralRollup ->
  (forall k1 k2, toBase58 k1 = toBase58 k2 -> k1 = k2) ->
  let pda := getPlayerPda pk in
  let after := component (snd (fetchPlayerData net w)) in
  let new := added w (snd (fetchPlayerData net w)) in
  head new = Some (GetAccountInfo Devnet pda) /\
  match net_getAccountInfo net (trace w) Devnet pda with
  | Ok None =>
      basePlayer after = None /\ erPlayer after = None /\ isDelegated after = false
  | Ok (Some info) =>
      (isDelegated after = true <-> owner info <> PROGRAM_ID) /\
      (forall e, In e new -> connectionOf e = Some EphemeralRollup ->
                 isDelegated after = true) /\
      (if isDelegated after
       then In (FetchPlayer EphemeralRollup pda) new
       else erPlayer after = None)
  | Throw _ => True
  end.
Proof.
  intros Hw Hpk Hbase Her Hinj pda after new.
  pose proof (fetchPlayerData_run w wal pk Devnet Hw Hpk Hbase) as Hrun.
  cbv zeta in Hrun. fold pda after new in Hrun. rewrite Her in Hrun.
  destruct (net_getAccountInfo net (trace w) Devnet pda) as [[info|]|e].
  - destruct Hrun as (Hflag & Hclear & Hnew). split; [now rewrite Hnew|].
    rewrite Hflag. split; [now apply differs_spec|].
    destruct (differs (owner info) PROGRAM_ID) eqn:Hd.
    + split; [reflexivity|]. rewrite Hnew. simpl. tauto.
    + split; [|now apply Hclear].
      intros e He Hc. rewrite Hnew in He. simpl in He.
      destruct He as [<-|[<-|[]]]; discriminate.
  - destruct Hrun as (Hb & He & Hflag & Hnew). now rewrite Hnew.
  - destruct Hrun as (_ & _ & _ & Hnew). now rewrite Hnew.
Qed.

(** Where the rollup snapshot is present or the flag is false, [player]
    is the authoritative snapshot of the specification. *)
Lemma player_spec_authoritative (s : State) :
  isDelegated s = false \/ erPlayer s <> None ->
  player s = spec_authoritative (basePlayer s) (erPlayer s) (isDelegated s).
Proof.
  unfold player, spec_authoritative.
  destruct (isDelegated s), (erPlayer s); intros [H|H]; congruence.
Qed.

(** C2, as the code has it. The view's snapshot is the rollup snapshot,
    present or not, when the delegation flag is true, and the primary
    snapshot when it is false; with primary at (5,5) and rollup at (7,7)
    it is the rollup one under a true flag and the primary one under a
    false flag. *)
Theorem player_follows_delegation_flag (s : State) :
  player s = match isDelegated s, erPlayer s with
             | true, Some rollup => Some rollup
             | true, None => None
             | false, _ => basePlayer s
             end /\
  forall wal pk base er a1 k1 d1 a2 k2 d2,
    let primary := PlayerData.mk 5 5 a1 k1 d1 in
    let rollup := PlayerData.mk 7 7 a2 k2 d2 in
    player (mkState wal pk (Some primary) (Some rollup) true base er) = Some rollup /\
    player (mkState wal pk (Some primary) (Some rollup) false base er) = Some primary.
Proof.
  split.
  - unfold player. now destruct (isDelegated s), (erPlayer s).
  - intros. now split.
Qed.

End GameBoardProperties.

(** ** The properties on concrete runs *)

Section Runs.
Import Fixture SessionKey.

Lemma render_key_inj (k1 k2 : PublicKey) : render_key k1 = render_key k2 -> k1 = k2.
Proof.
  unfold render_key. intros H.
  apply (f_equal list_ascii_of_string) in H.
  rewrite !list_ascii_of_string_of_list_ascii in H.
  apply (f_equal (map byte_of_ascii)) in H.
  assert (Hid : forall l : bytes, map byte_of_ascii (map ascii_of_byte l) = l).
  { induction l as [|b l IH]; simpl; [reflexivity|].
    now rewrite byte_of_ascii_of_byte, IH. }
  rewrite !Hid in H.
  destruct k1, k2. simpl in H. now subst.
Qed.

Lemma append_String (c : ascii) (s1 s2 : string) : String c s1 +:+ s2 = String c (s1 +:+ s2).
Proof. reflexivity. Qed.

Lemma string_append_assoc (s1 s2 s3 : string) : (s1 +:+ s2) +:+ s3 = s1 +:+ (s2 +:+ s3).
Proof.
  induction s1 as [|c s1 IH]; [reflexivity|].
  now rewrite !append_String, IH.
Qed.

Lemma parse_decimal_of_byte (b : byte) (rest : string) (acc : bytes) :
  parse_array (decimal_of_byte b +:+ rest) None acc =
  parse_array rest (Some (Byte.to_N b)) acc.
Proof. destruct b; reflexivity. Qed.

Lemma byte_of_number_to_N (b : byte) : byte_of_number (Byte.to_N b) = b.
Proof. destruct b; reflexivity. Qed.

Lemma parse_array_join (bs : bytes) (b : byte) (acc : bytes) :
  parse_array (join_comma (map decimal_of_byte (b :: bs)) +:+ "]") None acc
  = Ok (acc ++ b :: bs).
Proof.
  revert b acc. induction bs as [|b' bs IH]; intros b acc.
  - change (parse_array (decimal_of_byte b +:+ "]") None acc = Ok (acc ++ [b])).
    rewrite parse_decimal_of_byte. simpl. now rewrite byte_of_number_to_N.
  - change (join_comma (map decimal_of_byte (b :: b' :: bs)))
      with (decimal_of_byte b +:+ "," +:+ join_comma (map decimal_of_byte (b' :: bs))).
    rewrite !string_append_assoc, parse_decimal_of_byte, append_String.
    change (parse_array (String "," ?s) (Some ?n) ?a)
      with (parse_array s None (a ++ [byte_of_number n])).
    rewrite byte_of_number_to_N.
    change ("" +:+ ?s) with s.
    rewrite IH. now rewrite <- app_assoc.
Qed.

(** The reader of the fixture reads back every array that
    [JSON_stringify] writes. *)
Lemma read_array_stringify (bs : bytes) : read_array (JSON_stringify bs) = Ok bs.
Proof.
  destruct bs as [|b bs]; [reflexivity|].
  apply (parse_array_join bs b []).
Qed.

(** The fallback path: a wallet without [signMessage] signs the
    pseudo-transaction, and the key comes from that signature. *)
Example deriveSessionKey_fallback :
  fst (deriveSessionKey (P:=platform) transactionWallet bare) =
  Keypair_fromSeed (P:=platform) (seedOf (P:=platform) (pad 64 (utf8_encode "txsig"))) /\
  trace (snd (deriveSessionKey (P:=platform) transactionWallet bare)) =
  [SignTransaction alice (fallbackTransaction (P:=platform) transactionWallet)].
Proof. split; vm_compute; reflexivity. Qed.

(** A declined prompt surfaces as the wallet's error; nothing is cached. *)
Example getOrCreateSessionKey_declined :
  getOrCreateSessionKey (P:=platform) decliningWallet alice bare =
  (Throw (Error "User rejected the request"),
   mkWorld tt ∅ [SignMessage alice (messageBytes (P:=platform))]).
Proof. vm_compute. reflexivity. Qed.

(** Signing a versioned transaction fills the session key's slot and
    nothing else; a transaction that does not list the session key is
    refused and left alone. *)
Example signTransaction_versioned :
  signTransaction (P:=platform) aliceSessionWallet (Versioned versionedMove) =
  (Ok tt,
   Versioned
     (mkVersionedTransaction (v_message versionedMove)
        [Some (ed25519_sign (Platform:=platform)
                 (serializeMessage (Platform:=platform) (v_message versionedMove))
                 (secretKey derivedKeypair))])).
Proof. vm_compute. reflexivity. Qed.

Example signTransaction_versioned_not_a_signer :
  let foreign := mkVersionedTransaction
                   (mkVersionedMessage 1 [alice] "blockhash" (utf8_encode "move")) [None] in
  is_ok (fst (signTransaction (P:=platform) aliceSessionWallet (Versioned foreign))) = false /\
  snd (signTransaction (P:=platform) aliceSessionWallet (Versioned foreign)) = Versioned foreign.
Proof. split; vm_compute; reflexivity. Qed.

(** A refresh of a delegated account reads the primary ledger, then the
    rollup, and the view shows the rollup position. *)
Example fetchPlayerData_delegated :
  let run := GameBoard.fetchPlayerData (P:=platform)
               (ledgers (Some delegationProgram) (Ok "tx")) board in
  let pda := getPlayerPda (P:=platform) alice in
  trace (snd run) =
    [GetAccountInfo Devnet pda; FetchPlayer Devnet pda;
     RequestAirdrop EphemeralRollup pda 1; FetchPlayer EphemeralRollup pda] /\
  GameBoard.player (component (snd run)) =
    Some (GameBoard.PlayerData.mk 7 7 "alice" None (Some true)).
Proof. split; vm_compute; reflexivity. Qed.

Lemma deriveSessionKey_deterministic_witness :
  fst (deriveSessionKey (P:=platform) messageWallet bare) = Ok derivedKeypair /\
  fst (deriveSessionKey (P:=platform) messageWallet used) = Ok derivedKeypair.
Proof.
  apply (deriveSessionKey_deterministic (P:=platform) messageWallet bare used
           aliceSignature); vm_compute; reflexivity.
Defined.

Lemma cache_round_trip_witness :
  Keypair_fromSeed (P:=platform) (seedOf (P:=platform) aliceSignature) = Ok derivedKeypair /\
  getOrCreateSessionKey (P:=platform) decliningWallet alice
    (snd (storeCached (P:=platform) alice derivedKeypair bare)) =
  (Ok derivedKeypair, snd (storeCached (P:=platform) alice derivedKeypair bare)) /\
  fst (hasSessionKey (P:=platform) alice (snd (clearSessionKey (P:=platform) alice used)))
  = Ok false.
Proof.
  assert (Hseed : Keypair_fromSeed (P:=platform) (seedOf (P:=platform) aliceSignature)
                  = Ok derivedKeypair) by (vm_compute; reflexivity).
  split; [exact Hseed|].
  split.
  - apply (cache_round_trip (P:=platform) decliningWallet alice
             (seedOf (P:=platform) aliceSignature) derivedKeypair bare Hseed);
      [vm_compute; reflexivity | apply read_array_stringify].
  - apply (cache_round_trip (P:=platform) decliningWallet alice
             (seedOf (P:=platform) aliceSignature) derivedKeypair used Hseed);
      [vm_compute; reflexivity | apply read_array_stringify].
Defined.

Lemma corrupted_cache_rederives_witness :
  localStorage corrupted !! cacheKey (P:=platform) alice = Some "[12,3" /\
  is_ok (deserialize (P:=platform) "[12,3") = false /\
  fst (getOrCreateSessionKey (P:=platform) messageWallet alice corrupted) = Ok derivedKeypair.
Proof.
  assert (H1 : localStorage corrupted !! cacheKey (P:=platform) alice = Some "[12,3")
    by (vm_compute; reflexivity).
  assert (H2 : is_ok (deserialize (P:=platform) "[12,3") = false) by (vm_compute; reflexivity).
  split; [exact H1|]. split; [exact H2|].
  destruct (corrupted_cache_rederives (P:=platform) messageWallet alice "[12,3" corrupted H1 H2)
    as (_ & _ & -> & _).
  vm_compute. reflexivity.
Defined.

(** C1 does not hold as stated: when the on-chain revoke is rejected, the
    cache entry, the session key and the session wallet all survive the
    call. *)
Lemma revoke_failure_keeps_credential :
  let net := ledgers (Some (PROGRAM_ID (Platform:=platform)))
               (Throw (Error "Transaction simulation failed")) in
  let run := UseSessionKey.revokeSessionKey (P:=platform) net active in
  UseSessionKey.wallet (component active) = Some messageWallet /\
  UseSessionKey.publicKey (component active) = Some alice /\
  fst run = Ok false /\
  localStorage (snd run) !! cacheKey (P:=platform) alice
    = Some (JSON_stringify (secretKey derivedKeypair)) /\
  UseSessionKey.sessionKey (component (snd run)) = Some derivedKeypair /\
  UseSessionKey.sessionWallet (component (snd run)) = Some aliceSessionWallet /\
  ~ HookVocabulary.cleared (P:=platform) alice (snd run).
Proof.
  cbv zeta. repeat split; try (vm_compute; reflexivity).
  intros (_ & H & _). vm_compute in H. discriminate.
Qed.

Lemma revoke_clears_when_submission_succeeds_witness :
  let accepted := ledgers (Some (PROGRAM_ID (Platform:=platform))) (Ok "tx") in
  let rejected := ledgers (Some (PROGRAM_ID (Platform:=platform)))
                    (Throw (Error "Transaction simulation failed")) in
  (fst (UseSessionKey.revokeSessionKey (P:=platform) accepted active) = Ok true /\
   HookVocabulary.cleared (P:=platform) alice
     (snd (UseSessionKey.revokeSessionKey (P:=platform) accepted active))) /\
  (fst (UseSessionKey.revokeSessionKey (P:=platform) rejected active) = Ok false /\
   HookVocabulary.kept active
     (snd (UseSessionKey.revokeSessionKey (P:=platform) rejected active))).
Proof.
  intros accepted rejected. split.
  - exact (revoke_clears_when_submission_succeeds (P:=platform) accepted active
             messageWallet alice eq_refl eq_refl).
  - exact (revoke_clears_when_submission_succeeds (P:=platform) rejected active
             messageWallet alice eq_refl eq_refl).
Defined.

(** C2 does not hold as stated: for a delegated account whose rollup copy
    cannot be read, the primary snapshot is there and the view shows
    none. *)
Lemma player_absent_rollup_counterexample :
  let s := component (snd (GameBoard.fetchPlayerData (P:=platform) rollupDown board)) in
  GameBoard.isDelegated s = true /\
  GameBoard.erPlayer s = None /\
  GameBoard.basePlayer s = Some (GameBoard.PlayerData.mk 5 5 "alice" None (Some false)) /\
  GameBoard.player s = None /\
  GameBoard.player s <>
    spec_authoritative (GameBoard.basePlayer s) (GameBoard.erPlayer s) (GameBoard.isDelegated s).
Proof.
  cbv zeta. repeat split; try (vm_compute; reflexivity).
  vm_compute. discriminate.
Qed.

Lemma fetchPlayerData_delegation_witness :
  let net := ledgers (Some delegationProgram) (Ok "tx") in
  let run := GameBoard.fetchPlayerData (P:=platform) net board in
  head (added board (snd run)) = Some (GetAccountInfo Devnet (getPlayerPda (P:=platform) alice)) /\
  (GameBoard.isDelegated (component (snd run)) = true <->
   delegationProgram <> PROGRAM_ID (Platform:=platform)).
Proof.
  intros net run.
  pose proof (fetchPlayerData_delegation (P:=platform) net board messageWallet alice
                eq_refl eq_refl eq_refl eq_refl render_key_inj) as H.
  cbv zeta in H. destruct H as (Hfirst & Hrest).
  split; [exact Hfirst|]. exact (proj1 Hrest).
Defined.

Lemma register_submits_to_live_owner_witness :
  let net := ledgers (Some delegationProgram) (Ok "tx") in
  exists kind title,
    trace (snd (UseSessionKey.registerSessionKey (P:=platform) net fresh)) =
    trace afterKeyStep ++
    [GetAccountInfo Devnet (getPlayerPda (P:=platform) alice);
     Rpc EphemeralRollup alice (registerSessionKey_call (publicKey derivedKeypair));
     Toast kind title].
Proof.
  intros net.
  exact (proj2 (proj2 (register_submits_to_live_owner (P:=platform) net fresh
                         messageWallet alice eq_refl eq_refl))).
Defined.

(** C5 does not hold as stated: when the wallet declines the signing
    request, no key is obtained, and the call returns false without the
    live read and without a submission. *)
Lemma register_without_key_counterexample :
  let net := ledgers (Some delegationProgram) (Ok "tx") in
  let w := mkWorld
             (UseSessionKey.mkState (Some decliningWallet) (Some alice) None None
                false false false) ∅ [] in
  let run := UseSessionKey.registerSessionKey (P:=platform) net w in
  UseSessionKey.wallet (component w) = Some decliningWallet /\
  UseSessionKey.publicKey (component w) = Some alice /\
  fst run = Ok false /\
  UseSessionKey.sessionKey (component (snd run)) = None /\
  trace (snd run) =
    [SignMessage alice (messageBytes (P:=platform));
     Toast toast_error "Failed to create session key"] /\
  ~ (exists c address, In (GetAccountInfo c address) (trace (snd run))) /\
  ~ (exists c signer call, In (Rpc c signer call) (trace (snd run))).
Proof.
  cbv zeta.
  assert (Htrace :
    trace (snd (UseSessionKey.registerSessionKey (P:=platform)
                  (ledgers (Some delegationProgram) (Ok "tx"))
                  (mkWorld
                     (UseSessionKey.mkState (Some decliningWallet) (Some alice) None None
                        false false false) ∅ []))) =
    [SignMessage alice (messageBytes (P:=platform));
     Toast toast_error "Failed to create session key"]) by (vm_compute; reflexivity).
  split; [reflexivity|]. split; [reflexivity|].
  split; [vm_compute; reflexivity|]. split; [vm_compute; reflexivity|].
  split; [exact Htrace|]. rewrite Htrace. split.
  - intros (c & address & [H|[H|[]]]); discriminate.
  - intros (c & signer & call & [H|[H|[]]]); discriminate.
Qed.


Lemma signTransaction_fee_payer_witness :
  publicKey derivedKeypair <> alice /\
  feePayerOf (snd (signTransaction (P:=platform) aliceSessionWallet (Legacy legacyTransfer)))
  = Some (publicKey derivedKeypair).
Proof.
  assert (Hne : publicKey derivedKeypair <> alice) by (vm_compute; discriminate).
  split; [exact Hne|].
  exact (proj1 (proj2 (proj2 (signTransaction_fee_payer (P:=platform) aliceSessionWallet
                                (Legacy legacyTransfer) Hne)))).
Defined.

End Runs.

(** * Further properties *)

(** ** Restoring, checking and creating the session key *)

Section LifecycleProperties.
Import SessionKey UseSessionKey HookVocabulary Lifecycle.
Context `{P : Platform} (net : Network).

Lemma World_eta {S} (w : World S) : mkWorld (component w) (localStorage w) (trace w) = w.
Proof. now destruct w. Qed.

Lemma State_eta (s : State) :
  mkState (wallet s) (publicKey s) (sessionKey s) (sessionWallet s)
    (isRegistered s) (loading s) (isDelegated s) = s.
Proof. now destruct s. Qed.

(** An entry that deserializes is what [loadCached] returns. *)
Lemma loadCached_entry {S} (pk : PublicKey) (text : string) (kp : Keypair) (w : World S) :
  localStorage w !! cacheKey pk = Some text ->
  text <> "" ->
  deserialize text = Ok kp ->
  loadCached pk w = (Ok (Some kp), w).
Proof.
  intros Hentry Hne Hload.
  unfold loadCached, localStorage_getItem, bind. rewrite Hentry.
  assert (Ht : truthy (Some text) = true).
  { simpl. apply negb_true_iff, String.eqb_neq, Hne. }
  rewrite Ht. unfold try_catch, bind, lift, ret. unfold deserialize in Hload.
  destruct (bytes_of_JSON text) as [sk|e]; [|discriminate].
  now rewrite Hload.
Qed.

(** An entry that is empty or does not deserialize is skipped. *)
Lemma loadCached_unusable {S} (pk : PublicKey) (text : string) (w : World S) :
  localStorage w !! cacheKey pk = Some text ->
  text = "" \/ is_ok (deserialize text) = false ->
  loadCached pk w = (Ok None, w).
Proof.
  intros Hentry [->|Hbad].
  - unfold loadCached, localStorage_getItem, bind. now rewrite Hentry.
  - now apply (loadCached_corrupted pk text).
Qed.

Lemma hasSessionKey_run {S} (pk : PublicKey) (w : World S) :
  hasSessionKey pk w = (Ok (bool_decide (localStorage w !! cacheKey pk <> None)), w).
Proof. reflexivity. Qed.

(** X1. With a connected wallet and a cache entry that deserializes,
    [restoreSessionKey] puts the cached key and a session wallet around it
    into the hook's state without asking the wallet for anything: the
    history, the cache and the other cells are as before. *)
Theorem restoreSessionKey_from_cache
  (w : World State) (wal : AnchorWallet.t) (pk : PublicKey) (text : string) (kp : Keypair) :
  wallet (component w) = Some wal ->
  publicKey (component w) = Some pk ->
  localStorage w !! cacheKey pk = Some text ->
  text <> "" ->
  deserialize text = Ok kp ->
  restoreSessionKey w =
  (Ok tt,
   mkWorld
     (mkState (Some wal) (Some pk) (Some kp) (Some (mkSessionWallet wal kp))
        (isRegistered (component w)) (loading (component w)) (isDelegated (component w)))
     (localStorage w) (trace w)).
Proof.
  intros Hw Hpk Hentry Hne Hload.
  unfold restoreSessionKey. unfold bind at 1. unfold get_state at 1. cbv beta iota.
  rewrite Hw, Hpk. unfold try_catch. unfold bind at 1. rewrite hasSessionKey_run.
  rewrite Hentry. rewrite bool_decide_eq_true_2 by discriminate.
  unfold bind at 1. unfold getOrCreateSessionKey. unfold bind at 1.
  rewrite (loadCached_entry pk text kp w Hentry Hne Hload).
  unfold ret, bind, setSessionKey, setSessionWallet, modify_state. simpl.
  now rewrite Hw, Hpk.
Qed.

Lemma restoreSessionKey_skips (w : World State) (wal : AnchorWallet.t) (pk : PublicKey) :
  wallet (component w) = Some wal ->
  publicKey (component w) = Some pk ->
  localStorage w !! cacheKey pk = None ->
  restoreSessionKey w = (Ok tt, w).
Proof.
  intros Hw Hpk Hnone.
  unfold restoreSessionKey. unfold bind at 1. unfold get_state at 1. cbv beta iota.
  rewrite Hw, Hpk. unfold try_catch. unfold bind at 1. rewrite hasSessionKey_run.
  rewrite Hnone. rewrite bool_decide_eq_false_2 by (intros H; now apply H).
  reflexivity.
Qed.

(** X2. With a connected wallet and no cache entry [restoreSessionKey]
    changes nothing and asks the wallet for nothing, whatever key the
    hook holds in memory. *)
Theorem restoreSessionKey_without_entry
  (w : World State) (wal : AnchorWallet.t) (pk : PublicKey) :
  wallet (component w) = Some wal ->
  publicKey (component w) = Some pk ->
  localStorage w !! cacheKey pk = None ->
  restoreSessionKey w = (Ok tt, w) /\
  sessionKey (component (snd (restoreSessionKey w))) = sessionKey (component w) /\
  added w (snd (restoreSessionKey w)) = [].
Proof.
  intros Hw Hpk Hnone. rewrite (restoreSessionKey_skips w wal pk Hw Hpk Hnone).
  split; [reflexivity|]. split; [reflexivity|]. unfold added. simpl. apply drop_all.
Qed.

(** The world after the wallet was asked: only the request is added. *)
Lemma requestSignature_world {S} (wal : AnchorWallet.t) (w : World S) :
  snd (requestSignature wal w) =
  mkWorld (component w) (localStorage w) (trace w ++ [signingRequest wal]).
Proof.
  unfold requestSignature, signingRequest.
  destruct (AnchorWallet.signMessage wal); [reflexivity|].
  unfold bind, interact.
  destruct (AnchorWallet.signTransaction wal (trace w) (fallbackTransaction wal)) as [signed|e];
    [|reflexivity].
  now destruct (Web3.signature signed).
Qed.

Lemma deriveSessionKey_world {S} (wal : AnchorWallet.t) (w : World S) :
  snd (deriveSessionKey wal w) =
  mkWorld (component w) (localStorage w) (trace w ++ [signingRequest wal]).
Proof.
  rewrite deriveSessionKey_run, <- requestSignature_world.
  now destruct (requestSignature wal w) as [[sig|e] w'].
Qed.

Lemma loadCached_pure {S} (pk : PublicKey) (w : World S) :
  exists r, loadCached pk w = (Ok r, w).
Proof.
  unfold loadCached, localStorage_getItem, bind.
  destruct (localStorage w !! cacheKey pk) as [text|]; [|now eexists].
  destruct (truthy (Some text)); [|now eexists].
  unfold try_catch, bind, lift, ret.
  destruct (bytes_of_JSON text) as [sk|e]; [|now eexists].
  destruct (Keypair_fromSecretKey sk); now eexists.
Qed.

(** [getOrCreateSessionKey] when nothing usable is cached: the wallet is
    asked once, and a derived key is stored. *)
Lemma getOrCreateSessionKey_derives {S} (wal : AnchorWallet.t) (pk : PublicKey) (w : World S) :
  loadCached pk w = (Ok None, w) ->
  getOrCreateSessionKey wal pk w =
  match fst (deriveSessionKey wal w) with
  | Ok k =>
      (Ok k, mkWorld (component w) (<[cacheKey pk := JSON_stringify (secretKey k)]> (localStorage w))
               (trace w ++ [signingRequest wal]))
  | Throw e =>
      (Throw e, mkWorld (component w) (localStorage w) (trace w ++ [signingRequest wal]))
  end.
Proof.
  intros Hload. unfold getOrCreateSessionKey. rewrite (bind_ok _ _ _ _ _ Hload).
  unfold bind at 1. pose proof (deriveSessionKey_world wal w) as Hworld.
  destruct (deriveSessionKey wal w) as [[k|e] w']; simpl in *; now subst w'.
Qed.

(** What [getOrCreateSessionKey] leaves behind: the component state is
    not touched, and a failure leaves the cache as it was. *)
Lemma getOrCreateSessionKey_frame {S} (wal : AnchorWallet.t) (pk : PublicKey) (w : World S) :
  component (snd (getOrCreateSessionKey wal pk w)) = component w /\
  (is_ok (fst (getOrCreateSessionKey wal pk w)) = false ->
   localStorage (snd (getOrCreateSessionKey wal pk w)) = localStorage w).
Proof.
  destruct (loadCached_pure pk w) as [[kp|] Hload].
  - unfold getOrCreateSessionKey. rewrite (bind_ok _ _ _ _ _ Hload). simpl. now split.
  - rewrite (getOrCreateSessionKey_derives wal pk w Hload).
    destruct (fst (deriveSessionKey wal w)); simpl; now split.
Qed.

(** X3. A cache entry that is empty or does not deserialize still counts
    for [hasSessionKey], so [restoreSessionKey] goes on to derive a key:
    the wallet is asked to sign.  A derived key is installed and replaces
    the entry; if the wallet declines, nothing but the history changes
    and no error reaches the caller. *)
Theorem restoreSessionKey_unusable_entry_asks_wallet
  (w : World State) (wal : AnchorWallet.t) (pk : PublicKey) (text : string) :
  wallet (component w) = Some wal ->
  publicKey (component w) = Some pk ->
  localStorage w !! cacheKey pk = Some text ->
  text = "" \/ is_ok (deserialize text) = false ->
  restoreSessionKey w =
  match fst (deriveSessionKey wal w) with
  | Ok k =>
      (Ok tt,
       mkWorld
         (mkState (Some wal) (Some pk) (Some k) (Some (mkSessionWallet wal k))
            (isRegistered (component w)) (loading (component w)) (isDelegated (component w)))
         (<[cacheKey pk := JSON_stringify (secretKey k)]> (localStorage w))
         (trace w ++ [signingRequest wal]))
  | Throw _ =>
      (Ok tt, mkWorld (component w) (localStorage w) (trace w ++ [signingRequest wal]))
  end.
Proof.
  intros Hw Hpk Hentry Hbad.
  pose proof (loadCached_unusable pk text w Hentry Hbad) as Hload.
  unfold restoreSessionKey. unfold bind at 1. unfold get_state at 1. cbv beta iota.
  rewrite Hw, Hpk. unfold try_catch. unfold bind at 1. rewrite hasSessionKey_run.
  rewrite Hentry. rewrite bool_decide_eq_true_2 by discriminate.
  unfold bind at 1. rewrite (getOrCreateSessionKey_derives wal pk w Hload).
  destruct (fst (deriveSessionKey wal w)) as [k|e]; [|reflexivity].
  unfold ret, bind, setSessionKey, setSessionWallet, modify_state. simpl.
  now rewrite Hw, Hpk.
Qed.

(** X4. [createSessionKey] never throws.  With no wallet connected it
    returns null after an error toast and changes nothing else: [loading]
    stays as it was.  With a connected wallet it ends with [loading] off;
    it returns the key that [getOrCreateSessionKey] gives and installs it
    with a session wallet around the connected wallet, and when that
    fails it returns null and the cache, the in-memory key and the
    session wallet are as they were. *)
Theorem createSessionKey_outcome (w : World State) :
  let after := snd (createSessionKey w) in
  is_ok (fst (createSessionKey w)) = true /\
  match wallet (component w), publicKey (component w) with
  | Some wal, Some pk =>
      let attempt := getOrCreateSessionKey wal pk (snd (setLoading true w)) in
      loading (component after) = false /\
      match fst attempt with
      | Ok key =>
          fst (createSessionKey w) = Ok (Some key) /\
          sessionKey (component after) = Some key /\
          sessionWallet (component after) = Some (mkSessionWallet wal key) /\
          localStorage after = localStorage (snd attempt)
      | Throw _ =>
          fst (createSessionKey w) = Ok None /\ kept w after
      end
  | _, _ =>
      createSessionKey w =
      (Ok None,
       mkWorld (component w) (localStorage w)
         (trace w ++ [Toast toast_error "Wallet not connected"]))
  end.
Proof.
  cbv zeta.
  destruct (wallet (component w)) as [wal|] eqn:Hw;
    [destruct (publicKey (component w)) as [pk|] eqn:Hpk|].
  - pose proof (getOrCreateSessionKey_frame wal pk (snd (setLoading true w))) as (Hcomp & Hfail).
    set (attempt := getOrCreateSessionKey wal pk (snd (setLoading true w))) in *.
    remember (createSessionKey w) as run eqn:Hrun.
    unfold createSessionKey in Hrun.
    unfold bind at 1 in Hrun. unfold get_state at 1 in Hrun. cbv beta iota in Hrun.
    rewrite Hw, Hpk in Hrun. unfold bind at 1 in Hrun.
    change (setLoading true w) with (Ok tt, snd (setLoading true w)) in Hrun.
    cbv beta iota in Hrun. unfold try_finally, try_catch in Hrun. unfold bind at 1 in Hrun.
    fold attempt in Hrun.
    destruct attempt as [[key|e] w1]; simpl in *; subst run; simpl.
    + now repeat split.
    + rewrite Hcomp, (Hfail eq_refl). split; [reflexivity|]. split; [reflexivity|].
      split; [reflexivity|]. unfold kept. simpl. now repeat split.
  - unfold createSessionKey, bind, get_state. simpl. rewrite Hw, Hpk. now split.
  - unfold createSessionKey, bind, get_state. simpl. rewrite Hw. now split.
Qed.

(** X5. When the player account is absent from the primary ledger,
    [checkRegistration] takes it for delegated and reads the player from
    the rollup, and the delegation flag ends true exactly when that read
    succeeds; [getCurrentDelegationStatus] answers false on the same
    ledger answer. *)
Theorem checkRegistration_absent_account
  (w : World State) (wal : AnchorWallet.t) (pk : PublicKey) :
  wallet (component w) = Some wal ->
  publicKey (component w) = Some pk ->
  net_getAccountInfo net (trace w) Devnet (getPlayerPda pk) = Ok None ->
  let pda := getPlayerPda pk in
  let after := snd (checkRegistration net w) in
  added w after = [GetAccountInfo Devnet pda; FetchPlayer EphemeralRollup pda] /\
  isDelegated (component after) =
    is_ok (net_fetchPlayer net (trace w ++ [GetAccountInfo Devnet pda]) EphemeralRollup pda) /\
  fst (getCurrentDelegationStatus net w) = Ok false.
Proof.
  intros Hw Hpk Habsent pda after. subst after.
  split; [|split].
  3: { rewrite (getCurrentDelegationStatus_connected net w wal pk Hw Hpk). simpl.
       unfold liveDelegated. now rewrite Habsent. }
  all: remember (checkRegistration net w) as run eqn:Hrun;
    unfold checkRegistration in Hrun;
    unfold bind at 1 in Hrun; unfold get_state at 1 in Hrun; cbv beta iota in Hrun;
    rewrite Hw, Hpk in Hrun; unfold try_catch in Hrun;
    unfold bind at 1 in Hrun; unfold getAccountInfo, interact at 1 in Hrun;
    simpl getConnection in Hrun; rewrite Habsent in Hrun; fold pda in Hrun;
    unfold bind, setIsDelegated, setIsRegistered, modify_state, fetchPlayer, interact in Hrun;
    simpl in Hrun; fold pda in Hrun.
  all: destruct (net_fetchPlayer net (trace w ++ [GetAccountInfo Devnet pda]) EphemeralRollup pda);
    simpl in Hrun; subst run; simpl.
  all: try reflexivity.
  all: unfold added; simpl; rewrite <- app_assoc; now rewrite drop_app_length.
Qed.

(** X6. [checkRegistration] never throws and never touches the cache,
    the in-memory key, the session wallet, the identity or [loading],
    whatever is connected and whatever the ledgers answer.  With no wallet
    connected both flags end false and nothing is asked.  With a wallet
    the account is read on the primary ledger: if that read throws, both
    flags end false; otherwise the player is read from the rollup when
    the account is absent or owned by another program, from the primary
    ledger when the program owns it, and then the delegation flag says
    which of the two it was and the registration flag whether the player
    record carries a session key, or both flags end false when the player
    cannot be read. *)
Theorem checkRegistration_outcome (w : World State) :
  let after := snd (checkRegistration net w) in
  fst (checkRegistration net w) = Ok tt /\
  kept w after /\
  identity (component after) = identity (component w) /\
  loading (component after) = loading (component w) /\
  match wallet (component w), publicKey (component w) with
  | Some wal, Some pk =>
      let pda := getPlayerPda pk in
      match net_getAccountInfo net (trace w) Devnet pda with
      | Ok accountInfo =>
          let delegated :=
            match accountInfo with
            | Some info => differs (owner info) PROGRAM_ID
            | None => true
            end in
          let source := if delegated then EphemeralRollup else Devnet in
          added w after = [GetAccountInfo Devnet pda; FetchPlayer source pda] /\
          match net_fetchPlayer net (trace w ++ [GetAccountInfo Devnet pda]) source pda with
          | Ok player =>
              isDelegated (component after) = delegated /\
              isRegistered (component after) = bool_decide (acc_sessionKey player <> None)
          | Throw _ =>
              isDelegated (component after) = false /\ isRegistered (component after) = false
          end
      | Throw _ =>
          added w after = [GetAccountInfo Devnet pda] /\
          isDelegated (component after) = false /\ isRegistered (component after) = false
      end
  | _, _ =>
      added w after = [] /\
      isDelegated (component after) = false /\ isRegistered (component after) = false
  end.
Proof.
  cbv zeta.
  destruct (wallet (component w)) as [wal|] eqn:Hw;
    [destruct (publicKey (component w)) as [pk|] eqn:Hpk|].
  - set (pda := getPlayerPda pk).
    remember (checkRegistration net w) as run eqn:Hrun.
    unfold checkRegistration in Hrun.
    unfold bind at 1 in Hrun. unfold get_state at 1 in Hrun. cbv beta iota in Hrun.
    rewrite Hw, Hpk in Hrun. unfold try_catch in Hrun.
    unfold bind at 1 in Hrun. unfold getAccountInfo, interact at 1 in Hrun.
    simpl getConnection in Hrun. fold pda in Hrun.
    destruct (net_getAccountInfo net (trace w) Devnet pda) as [accountInfo|e].
    + unfold bind, setIsDelegated, setIsRegistered, modify_state, fetchPlayer, interact in Hrun.
      simpl in Hrun. fold pda in Hrun.
      assert (Hsource : getConnectionForAccount (ownerDiffers accountInfo) =
                        if match accountInfo with
                           | Some info => differs (owner info) PROGRAM_ID
                           | None => true
                           end then EphemeralRollup else Devnet).
      { destruct accountInfo as [info|]; [|reflexivity]. simpl.
        now destruct (differs (owner info) PROGRAM_ID). }
      rewrite Hsource in Hrun.
      assert (Hflag : ownerDiffers accountInfo =
                      match accountInfo with
                      | Some info => differs (owner info) PROGRAM_ID
                      | None => true
                      end) by now destruct accountInfo.
      rewrite Hflag in Hrun.
      destruct (net_fetchPlayer net (trace w ++ [GetAccountInfo Devnet pda]) _ pda);
        simpl in Hrun; subst run; unfold kept, identity, added; simpl;
        rewrite Hw, Hpk, <- app_assoc, drop_app_length; now repeat split.
    + unfold bind, setIsDelegated, setIsRegistered, modify_state in Hrun. simpl in Hrun.
      subst run. unfold kept, identity, added. simpl.
      rewrite Hw, Hpk, drop_app_length. now repeat split.
  - unfold checkRegistration, bind, get_state, setIsDelegated, setIsRegistered, modify_state.
    simpl. rewrite Hw, Hpk. unfold kept, identity, added. simpl.
    rewrite Hw, Hpk, drop_all. now repeat split.
  - unfold checkRegistration, bind, get_state, setIsDelegated, setIsRegistered, modify_state.
    simpl. rewrite Hw. unfold kept, identity, added. simpl.
    rewrite Hw, drop_all. now repeat split.
Qed.

(** X7. [clearSessionOnUndelegate] removes the identity's cache entry and
    the in-memory credential without any interaction, and a
    [restoreSessionKey] that follows brings nothing back and asks the
    wallet for nothing. *)
Theorem clearSessionOnUndelegate_then_restore
  (w : World State) (wal : AnchorWallet.t) (pk : PublicKey) :
  wallet (component w) = Some wal ->
  publicKey (component w) = Some pk ->
  let gone := snd (clearSessionOnUndelegate w) in
  cleared pk gone /\
  isRegistered (component gone) = false /\
  trace gone = trace w /\
  restoreSessionKey gone = (Ok tt, gone).
Proof.
  intros Hw Hpk gone.
  assert (Hgone : gone =
    mkWorld (mkState (Some wal) (Some pk) None None false (loading (component w))
               (isDelegated (component w)))
      (delete (cacheKey pk) (localStorage w)) (trace w)).
  { subst gone. unfold clearSessionOnUndelegate. unfold bind at 1. unfold get_state at 1.
    cbv beta iota. rewrite Hpk.
    unfold bind, clearSessionKey, localStorage_removeItem, setSessionKey, setSessionWallet,
      setIsRegistered, modify_state. simpl. now rewrite Hw, Hpk. }
  rewrite Hgone. unfold cleared. simpl.
  split; [split; [apply lookup_delete_eq | now split]|].
  split; [reflexivity|]. split; [reflexivity|].
  apply (restoreSessionKey_skips _ wal pk); simpl; try reflexivity.
  apply lookup_delete_eq.
Qed.


Lemma cacheKey_inj (pk1 pk2 : PublicKey) :
  (forall k1 k2, toBase58 k1 = toBase58 k2 -> k1 = k2) ->
  cacheKey pk1 = cacheKey pk2 -> pk1 = pk2.
Proof.
  intros Hinj Heq. apply Hinj. unfold cacheKey in Heq.
  exact (String.app_inj "session_key_" _ _ Heq).
Qed.

(** What [loadCached] returns depends on the identity's entry only. *)
Lemma loadCached_lookup {S T} (pk : PublicKey) (w1 : World S) (w2 : World T) :
  localStorage w1 !! cacheKey pk = localStorage w2 !! cacheKey pk ->
  fst (loadCached pk w1) = fst (loadCached pk w2).
Proof.
  intros Heq. unfold loadCached, localStorage_getItem, bind. rewrite Heq.
  destruct (localStorage w2 !! cacheKey pk) as [text|]; [|reflexivity].
  destruct (truthy (Some text)); [|reflexivity].
  unfold try_catch, bind, lift, ret.
  destruct (bytes_of_JSON text) as [sk|e]; [|reflexivity].
  now destruct (Keypair_fromSecretKey sk).
Qed.

(** X8. Cache entries are kept per identity: storing or clearing the key
    of one identity changes neither what [loadCached] returns nor what
    [hasSessionKey] says for another identity. *)
Theorem cache_entries_per_identity {S}
  (pk1 pk2 : PublicKey) (kp : Keypair) (w : World S) :
  (forall k1 k2, toBase58 k1 = toBase58 k2 -> k1 = k2) ->
  pk1 <> pk2 ->
  fst (loadCached pk2 (snd (storeCached pk1 kp w))) = fst (loadCached pk2 w) /\
  fst (loadCached pk2 (snd (clearSessionKey pk1 w))) = fst (loadCached pk2 w) /\
  fst (hasSessionKey pk2 (snd (storeCached pk1 kp w))) = fst (hasSessionKey pk2 w) /\
  fst (hasSessionKey pk2 (snd (clearSessionKey pk1 w))) = fst (hasSessionKey pk2 w).
Proof.
  intros Hinj Hne.
  assert (Hkey : cacheKey pk1 <> cacheKey pk2).
  { intros Heq. apply Hne. now apply cacheKey_inj. }
  assert (Hstore : localStorage (snd (storeCached pk1 kp w)) !! cacheKey pk2
                   = localStorage w !! cacheKey pk2).
  { simpl. now rewrite lookup_insert_ne. }
  assert (Hclear : localStorage (snd (clearSessionKey pk1 w)) !! cacheKey pk2
                   = localStorage w !! cacheKey pk2).
  { simpl. now rewrite lookup_delete_ne. }
  split; [now apply loadCached_lookup|]. split; [now apply loadCached_lookup|].
  rewrite !hasSessionKey_run. cbn [fst]. now rewrite Hstore, Hclear.
Qed.

Lemma deriveSessionKey_answer {S} (wal : AnchorWallet.t) (w : World S) :
  fst (deriveSessionKey wal w) =
  match fst (requestSignature wal w) with
  | Ok signature => Keypair_fromSeed (seedOf signature)
  | Throw e => Throw e
  end.
Proof. rewrite deriveSessionKey_run. now destruct (requestSignature wal w) as [[sig|e] w']. Qed.

(** The derived key depends on the world through its history only. *)
Lemma deriveSessionKey_history {S T} (wal : AnchorWallet.t) (w1 : World S) (w2 : World T) :
  trace w1 = trace w2 ->
  fst (deriveSessionKey wal w1) = fst (deriveSessionKey wal w2).
Proof.
  intros Heq. rewrite !deriveSessionKey_answer, !requestSignature_answer. now rewrite Heq.
Qed.

(** The run of [createSessionKey] for a connected wallet. *)
Lemma createSessionKey_run (w : World State) (wal : AnchorWallet.t) (pk : PublicKey) :
  wallet (component w) = Some wal ->
  publicKey (component w) = Some pk ->
  createSessionKey w =
  match getOrCreateSessionKey wal pk (snd (setLoading true w)) with
  | (Ok key, w1) =>
      (Ok (Some key),
       mkWorld
         (mkState (wallet (component w1)) (publicKey (component w1)) (Some key)
            (Some (mkSessionWallet wal key)) (isRegistered (component w1)) false
            (isDelegated (component w1)))
         (localStorage w1) (trace w1 ++ [Toast toast_success "Session key created"]))
  | (Throw _, w1) =>
      (Ok None,
       mkWorld
         (mkState (wallet (component w1)) (publicKey (component w1)) (sessionKey (component w1))
            (sessionWallet (component w1)) (isRegistered (component w1)) false
            (isDelegated (component w1)))
         (localStorage w1) (trace w1 ++ [Toast toast_error "Failed to create session key"]))
  end.
Proof.
  intros Hw Hpk.
  set (attempt := getOrCreateSessionKey wal pk (snd (setLoading true w))).
  remember (createSessionKey w) as run eqn:Hrun. unfold createSessionKey in Hrun.
  unfold bind at 1 in Hrun. unfold get_state at 1 in Hrun. cbv beta iota in Hrun.
  rewrite Hw, Hpk in Hrun. unfold bind at 1 in Hrun.
  change (setLoading true w) with (Ok tt, snd (setLoading true w)) in Hrun.
  cbv beta iota in Hrun. unfold try_finally, try_catch in Hrun. unfold bind at 1 in Hrun.
  fold attempt in Hrun.
  destruct attempt as [[key|e] w1]; simpl in Hrun; now subst run.
Qed.

(** The run of [registerSessionKeyFrom] once its key step has a key. *)
Lemma registerSessionKeyFrom_run
  (held : option Keypair) (w w1 : World State) (wal : AnchorWallet.t) (pk : PublicKey)
  (key : Keypair) :
  wallet (component w) = Some wal ->
  publicKey (component w) = Some pk ->
  obtainKey held (snd (setLoading true w)) = (Ok (Some key), w1) ->
  exists kind title,
    trace (snd (registerSessionKeyFrom net held w)) =
    trace w1 ++ [GetAccountInfo Devnet (getPlayerPda pk);
                 Rpc (getConnectionForAccount (liveDelegated net (trace w1) pk))
                   (AnchorWallet.publicKey wal)
                   (registerSessionKey_call (Web3.publicKey key));
                 Toast kind title].
Proof.
  intros Hw Hpk Hkey.
  destruct (obtainKey_steady held (snd (setLoading true w))) as (Hid & _).
  rewrite Hkey in Hid. simpl in Hid.
  unfold identity in Hid. rewrite Hw, Hpk in Hid. injection Hid as Hw1 Hpk1.
  remember (registerSessionKeyFrom net held w) as run eqn:Hrun.
  unfold registerSessionKeyFrom in Hrun.
  unfold bind at 1 in Hrun. unfold get_state at 1 in Hrun. cbv beta iota in Hrun.
  rewrite Hw, Hpk in Hrun. unfold bind at 1 in Hrun.
  change (setLoading true w) with (Ok tt, snd (setLoading true w)) in Hrun.
  cbv beta iota in Hrun. unfold try_finally, try_catch in Hrun.
  unfold bind at 1 in Hrun.
  change (match held with
          | Some key => ret (Some key)
          | None => createSessionKey
          end) with (obtainKey held) in Hrun.
  rewrite Hkey in Hrun.
  erewrite bind_ok in Hrun; cycle 1.
  { apply (getCurrentDelegationStatus_connected _ _ wal pk); assumption. }
  unfold bind at 1 in Hrun. unfold rpc, interact at 1 in Hrun.
  cbn [trace component localStorage] in Hrun.
  destruct (net_rpc net _ _ (AnchorWallet.publicKey wal) _) as [tx|e];
    simpl in Hrun; subst run; simpl.
  - eexists _, _. now rewrite <- !app_assoc.
  - eexists _, _. now rewrite <- !app_assoc.
Qed.

(** [registerSessionKey] is [registerSessionKeyFrom] at the current value
    of the [sessionKey] cell. *)
Lemma registerSessionKey_current (w : World State) :
  registerSessionKey net w = registerSessionKeyFrom net (sessionKey (component w)) w.
Proof. reflexivity. Qed.

(** X9. [initializeSession] from a connected wallet with no key in memory
    or in the cache, when the wallet signs the derivation request and the
    stored key reads back: the signature the key is derived from is
    requested once.  The [registerSessionKey] it calls does not see the
    key just created and runs [createSessionKey] a second time, which is
    served from the cache without a second derivation request (only a
    second "created" toast); the live read and the submission follow, and
    the key submitted is the key derived.  The submission event stands
    for the whole of [.rpc ()], the wallet's signing of the register
    transaction included: that request is not a derivation request and is
    not counted here. *)
Theorem initializeSession_derives_once
  (w : World State) (wal : AnchorWallet.t) (pk : PublicKey) (key : Keypair) :
  wallet (component w) = Some wal ->
  publicKey (component w) = Some pk ->
  sessionKey (component w) = None ->
  localStorage w !! cacheKey pk = None ->
  fst (deriveSessionKey wal w) = Ok key ->
  deserialize (JSON_stringify (secretKey key)) = Ok key ->
  let created := Toast toast_success "Session key created" in
  let history := trace w ++ [signingRequest wal; created; created] in
  exists kind title,
    trace (snd (initializeSession net w)) =
    history ++
    [GetAccountInfo Devnet (getPlayerPda pk);
     Rpc (getConnectionForAccount (liveDelegated net history pk))
       (AnchorWallet.publicKey wal) (registerSessionKey_call (Web3.publicKey key));
     Toast kind title].
Proof.
  intros Hw Hpk Hheld Hnone Hderive Hback created history.
  (* the first key step derives and stores *)
  set (w0 := snd (setLoading true w)).
  assert (Hload0 : loadCached pk w0 = (Ok None, w0)).
  { unfold loadCached, localStorage_getItem, bind. simpl. now rewrite Hnone. }
  assert (Hderive0 : fst (deriveSessionKey wal w0) = Ok key).
  { now rewrite (deriveSessionKey_history wal w0 w). }
  pose proof (createSessionKey_run w wal pk Hw Hpk) as Hfirst. fold w0 in Hfirst.
  rewrite (getOrCreateSessionKey_derives wal pk w0 Hload0), Hderive0 in Hfirst.
  simpl in Hfirst. rewrite Hw, Hpk in Hfirst.
  set (w1 := mkWorld _ _ _) in Hfirst.
  (* the second key step loads what the first one stored *)
  set (w2 := snd (setLoading true (snd (setLoading true w1)))).
  assert (Hload2 : loadCached pk w2 = (Ok (Some key), w2)).
  { apply (loadCached_entry pk (JSON_stringify (secretKey key))).
    - simpl. apply lookup_insert_eq.
    - discriminate.
    - exact Hback. }
  pose proof (createSessionKey_run (snd (setLoading true w1)) wal pk eq_refl eq_refl) as Hsecond.
  fold w2 in Hsecond. unfold getOrCreateSessionKey in Hsecond.
  rewrite (bind_ok _ _ _ _ _ Hload2) in Hsecond. simpl in Hsecond.
  destruct (registerSessionKeyFrom_run None w1 _ wal pk key eq_refl eq_refl Hsecond)
    as (kind & title & Htrace).
  exists kind, title.
  unfold initializeSession. unfold bind at 1. unfold get_state at 1. cbv beta iota.
  unfold bind at 1. rewrite Hfirst. rewrite Hheld.
  unfold bind at 1.
  destruct (registerSessionKeyFrom net None w1) as [[b|e] w3]; simpl in *.
  all: rewrite Htrace; subst history created; now rewrite <- !app_assoc.
Qed.


(** X10. The live read is only a read: [getCurrentDelegationStatus]
    never throws, leaves the hook's state and the cache as they are, and
    talks to nothing but the primary ledger, at most once. *)
Theorem getCurrentDelegationStatus_read_only (w : World State) :
  let after := snd (getCurrentDelegationStatus net w) in
  is_ok (fst (getCurrentDelegationStatus net w)) = true /\
  component after = component w /\
  localStorage after = localStorage w /\
  (added w after = [] \/
   exists pk, publicKey (component w) = Some pk /\
              added w after = [GetAccountInfo Devnet (getPlayerPda pk)]).
Proof.
  cbv zeta.
  destruct (wallet (component w)) as [wal|] eqn:Hw;
    [destruct (publicKey (component w)) as [pk|] eqn:Hpk|].
  - rewrite (getCurrentDelegationStatus_connected net w wal pk Hw Hpk). simpl.
    repeat split. right. exists pk. split; [reflexivity|].
    unfold added. simpl. apply drop_app_length.
  - rewrite (getCurrentDelegationStatus_disconnected net w) by now right.
    simpl. repeat split. left. unfold added. apply drop_all.
  - rewrite (getCurrentDelegationStatus_disconnected net w) by now left.
    simpl. repeat split. left. unfold added. apply drop_all.
Qed.

(** X11. [registerSessionKey] with a key in memory never throws and ends
    with [loading] off.  When the submission is accepted the hook is
    marked registered and its delegation flag takes the answer of the
    live read; when it is rejected both flags stay as they were.  The key
    in memory and the cache are untouched either way, so a rejected
    registration can be retried with the same key. *)
Theorem registerSessionKey_flags
  (w : World State) (wal : AnchorWallet.t) (pk : PublicKey) (key : Keypair) :
  wallet (component w) = Some wal ->
  publicKey (component w) = Some pk ->
  sessionKey (component w) = Some key ->
  let live := liveDelegated net (trace w) pk in
  let history := trace w ++ [GetAccountInfo Devnet (getPlayerPda pk)] in
  let after := snd (registerSessionKey net w) in
  loading (component after) = false /\
  kept w after /\
  match net_rpc net history (getConnectionForAccount live) (AnchorWallet.publicKey wal)
          (registerSessionKey_call (Web3.publicKey key)) with
  | Ok _ =>
      fst (registerSessionKey net w) = Ok true /\
      isRegistered (component after) = true /\
      isDelegated (component after) = live
  | Throw _ =>
      fst (registerSessionKey net w) = Ok false /\
      isRegistered (component after) = isRegistered (component w) /\
      isDelegated (component after) = isDelegated (component w)
  end.
Proof.
  intros Hw Hpk Hkey live history after. subst after.
  remember (registerSessionKey net w) as run eqn:Hrun.
  unfold registerSessionKey in Hrun.
  unfold bind at 1 in Hrun. unfold get_state at 1 in Hrun. cbv beta iota in Hrun.
  rewrite Hw, Hpk, Hkey in Hrun. unfold bind at 1 in Hrun.
  unfold setLoading at 1, modify_state at 1 in Hrun. cbv beta iota in Hrun.
  unfold try_finally, try_catch in Hrun.
  unfold bind at 1 in Hrun. unfold ret at 1 in Hrun. cbv beta iota in Hrun.
  erewrite bind_ok in Hrun; cycle 1.
  { apply (getCurrentDelegationStatus_connected _ _ wal pk); simpl; assumption. }
  unfold bind at 1 in Hrun. unfold rpc, interact at 1 in Hrun.
  cbn [trace component localStorage] in Hrun. fold live history in Hrun.
  destruct (net_rpc net history (getConnectionForAccount live) (AnchorWallet.publicKey wal)
              (registerSessionKey_call (Web3.publicKey key))) as [tx|e];
    simpl in Hrun; subst run; unfold kept; simpl; now repeat split.
Qed.

End LifecycleProperties.

(** ** Signing several transactions *)

Section SignAllProperties.
Import SessionKey SignAll.
Context `{P : Platform}.

(** X12. [signAllTransactions] signs the transactions in order with
    [signTransaction]'s steps.  If every signing succeeds, each
    transaction ends as [signTransaction] leaves it.  Otherwise the error
    is that of the first transaction that fails: the ones before it are
    signed, the ones after it are untouched. *)
Theorem signAllTransactions_in_order (this : SessionWallet) (txs : list AnyTransaction) :
  let after := snd (signAllTransactions this txs) in
  length after = length txs /\
  match fst (signAllTransactions this txs) with
  | Ok _ =>
      Forall (fun tx => fst (signTransaction this tx) = Ok tt) txs /\
      after = map (fun tx => snd (signTransaction this tx)) txs
  | Throw e =>
      exists i tx,
        txs !! i = Some tx /\
        fst (signTransaction this tx) = Throw e /\
        Forall (fun tx => fst (signTransaction this tx) = Ok tt) (take i txs) /\
        after = map (fun tx => snd (signTransaction this tx)) (take i txs)
                ++ snd (signTransaction this tx) :: drop (S i) txs
  end.
Proof.
  induction txs as [|tx rest IH]; simpl.
  - split; [reflexivity|]. now split.
  - destruct (signTransaction this tx) as [[[]|e] tx'] eqn:Hsign.
    + cbv zeta in IH. destruct (signAllTransactions this rest) as [r rest'].
      simpl in *. destruct IH as (Hlen & IH). split; [now rewrite Hlen|].
      destruct r as [[]|e].
      * destruct IH as (Hall & ->). split; [|reflexivity].
        constructor; [now rewrite Hsign | exact Hall].
      * destruct IH as (i & failing & Hi & Hfail & Hbefore & ->).
        exists (S i), failing. simpl. rewrite Hsign. simpl.
        repeat split; try assumption.
        constructor; [now rewrite Hsign | exact Hbefore].
    + simpl. split; [reflexivity|].
      exists 0, tx. simpl. rewrite Hsign. simpl. rewrite drop_0.
      repeat split. constructor.
Qed.

End SignAllProperties.

(** ** Refreshing and pushed updates of the player *)

Section ViewProperties.
Import GameBoard Subscriptions.
Context `{P : Platform} (net : Network).

(** Every way through [fetchPlayerData], leaf by leaf. *)
Ltac fetch_cases H :=
  repeat match type of H with
         | context [match ?x with _ => _ end] =>
             match x with
             | context [match _ with _ => _ end] => fail 1
             | _ => destruct x eqn:?; simpl in H
             end
         end.

(** X13. [fetchPlayerData] never throws, whatever the ledgers answer, and
    it leaves the connected identity, the two connections and the cache
    alone; everything it adds to the history is a ledger read. *)
Theorem fetchPlayerData_never_throws (w : World State) :
  let after := snd (fetchPlayerData net w) in
  fst (fetchPlayerData net w) = Ok tt /\
  wallet (component after) = wallet (component w) /\
  publicKey (component after) = publicKey (component w) /\
  baseConnection (component after) = baseConnection (component w) /\
  erConnection (component after) = erConnection (component w) /\
  localStorage after = localStorage w /\
  exists reads, trace after = trace w ++ reads /\
                Forall (fun e => connectionOf e <> None) reads.
Proof.
  cbv zeta. remember (fetchPlayerData net w) as run eqn:Hrun.
  unfold fetchPlayerData, try_catch, bind, get_state, getAccountInfo, fetchPlayer,
    requestAirdrop, interact, setBasePlayer, setErPlayer, setIsDelegated, modify_state, ret
    in Hrun.
  simpl in Hrun. fetch_cases Hrun.
  all: subst run; simpl; repeat split; try reflexivity; try congruence.
  all: try (exists []; split; [now rewrite app_nil_r | constructor]).
  all: eexists; rewrite <- ?app_assoc; split; [reflexivity|]; repeat constructor; discriminate.
Qed.


(** X14. Refreshing a delegated account: each ledger's snapshot becomes
    what that ledger returns, and a read that fails leaves the snapshot
    that was there; the rollup is read whether or not the airdrop nudge
    before it succeeded. *)
Theorem fetchPlayerData_snapshots
  (w : World State) (wal : AnchorWallet.t) (pk : PublicKey) (base er : Connection)
  (info : AccountInfo) :
  wallet (component w) = Some wal ->
  publicKey (component w) = Some pk ->
  baseConnection (component w) = Some base ->
  erConnection (component w) = Some er ->
  net_getAccountInfo net (trace w) base (getPlayerPda pk) = Ok (Some info) ->
  differs (owner info) PROGRAM_ID = true ->
  let pda := getPlayerPda pk in
  let after := component (snd (fetchPlayerData net w)) in
  basePlayer after =
    match net_fetchPlayer net (trace w ++ [GetAccountInfo base pda]) base pda with
    | Ok account => Some (snapshot account false)
    | Throw _ => basePlayer (component w)
    end /\
  erPlayer after =
    match net_fetchPlayer net
            (trace w ++ [GetAccountInfo base pda; FetchPlayer base pda;
                         RequestAirdrop er pda 1]) er pda with
    | Ok account => Some (snapshot account true)
    | Throw _ => erPlayer (component w)
    end.
Proof.
  intros Hw Hpk Hbase Her Hinfo Hdel pda after. subst after.
  remember (fetchPlayerData net w) as run eqn:Hrun.
  unfold fetchPlayerData in Hrun.
  unfold bind at 1 in Hrun. unfold get_state at 1 in Hrun. cbv beta iota in Hrun.
  rewrite Hw, Hpk, Hbase in Hrun.
  unfold try_catch at 1 in Hrun. unfold bind at 1 in Hrun.
  unfold getAccountInfo, interact at 1 in Hrun. rewrite Hinfo in Hrun. fold pda in Hrun.
  cbv zeta in Hrun. rewrite Hdel, Her in Hrun.
  unfold try_catch, bind, fetchPlayer, requestAirdrop, interact, setBasePlayer, setErPlayer,
    setIsDelegated, modify_state, ret in Hrun.
  simpl in Hrun. rewrite <- !app_assoc in Hrun. simpl in Hrun.
  destruct (net_fetchPlayer net (trace w ++ [GetAccountInfo base pda]) base pda);
    simpl in Hrun;
    destruct (net_requestAirdrop net _ er pda 1); simpl in Hrun;
    rewrite <- ?app_assoc in Hrun; simpl in Hrun;
    destruct (net_fetchPlayer net
                (trace w ++ [GetAccountInfo base pda; FetchPlayer base pda;
                             RequestAirdrop er pda 1]) er pda);
    simpl in Hrun; subst run; simpl; now split.
Qed.

(** X15. When the read of the primary ledger throws, the refresh drops
    both snapshots and the delegation flag and stops there: the view is
    empty and no other ledger call is made. *)
Theorem fetchPlayerData_read_error
  (w : World State) (wal : AnchorWallet.t) (pk : PublicKey) (base : Connection) (e : JsError) :
  wallet (component w) = Some wal ->
  publicKey (component w) = Some pk ->
  baseConnection (component w) = Some base ->
  net_getAccountInfo net (trace w) base (getPlayerPda pk) = Throw e ->
  let after := snd (fetchPlayerData net w) in
  basePlayer (component after) = None /\
  erPlayer (component after) = None /\
  isDelegated (component after) = false /\
  player (component after) = None /\
  added w after = [GetAccountInfo base (getPlayerPda pk)].
Proof.
  intros Hw Hpk Hbase Herr after.
  pose proof (fetchPlayerData_run net w wal pk base Hw Hpk Hbase) as Hrun.
  cbv zeta in Hrun. rewrite Herr in Hrun. fold after in Hrun.
  destruct Hrun as (Hb & He & Hd & Hnew).
  repeat split; try assumption. unfold player. now rewrite Hd.
Qed.

Section Pushes.
Variable decodePlayer : bytes -> result PlayerAccount.

Lemma handleBaseChange_run (push : PushedAccount) (w : World State) :
  handleBaseChange decodePlayer push w =
  match decodePlayer (pushed_data push) with
  | Ok account =>
      (Ok tt,
       mkWorld
         (mkState (wallet (component w)) (publicKey (component w))
            (Some (snapshot account false)) (erPlayer (component w))
            (differs (pushed_owner push) PROGRAM_ID)
            (baseConnection (component w)) (erConnection (component w)))
         (localStorage w) (trace w))
  | Throw _ => (Ok tt, w)
  end.
Proof.
  unfold handleBaseChange, try_catch, bind, lift.
  destruct (decodePlayer (pushed_data push)); [reflexivity|]. now destruct w.
Qed.

Lemma handleErChange_run (push : PushedAccount) (w : World State) :
  handleErChange decodePlayer push w =
  match decodePlayer (pushed_data push) with
  | Ok account =>
      (Ok tt,
       mkWorld
         (mkState (wallet (component w)) (publicKey (component w))
            (basePlayer (component w)) (Some (snapshot account true))
            (isDelegated (component w))
            (baseConnection (component w)) (erConnection (component w)))
         (localStorage w) (trace w))
  | Throw _ => (Ok tt, w)
  end.
Proof.
  unfold handleErChange, try_catch, bind, lift.
  destruct (decodePlayer (pushed_data push)); [reflexivity|]. now destruct w.
Qed.

(** X16. A push from the primary ledger that decodes sets the primary
    snapshot to the pushed record and recomputes the delegation flag from
    the pushed owner, whoever the owner is, and leaves the rollup
    snapshot and everything else as it was; so the view shows the pushed
    position once the owner is the program again, and the rollup
    snapshot while another program owns the account.  A push that does
    not decode changes nothing, the delegation flag included.  The
    handler never throws. *)
Theorem handleBaseChange_view (push : PushedAccount) (w : World State) :
  let after := snd (handleBaseChange decodePlayer push w) in
  fst (handleBaseChange decodePlayer push w) = Ok tt /\
  match decodePlayer (pushed_data push) with
  | Ok account =>
      after =
      mkWorld
        (mkState (wallet (component w)) (publicKey (component w))
           (Some (snapshot account false)) (erPlayer (component w))
           (differs (pushed_owner push) PROGRAM_ID)
           (baseConnection (component w)) (erConnection (component w)))
        (localStorage w) (trace w) /\
      basePlayer (component after) = Some (snapshot account false) /\
      erPlayer (component after) = erPlayer (component w) /\
      isDelegated (component after) = differs (pushed_owner push) PROGRAM_ID /\
      player (component after) =
        if differs (pushed_owner push) PROGRAM_ID
        then erPlayer (component w)
        else Some (snapshot account false)
  | Throw _ => after = w
  end.
Proof.
  cbv zeta. rewrite handleBaseChange_run.
  destruct (decodePlayer (pushed_data push)); simpl; [|now split].
  repeat split.
Qed.

(** X17. A push from the rollup never throws and never changes the
    delegation flag, the primary snapshot or anything but the rollup
    snapshot, whether the account is delegated or not: a record that
    decodes becomes the rollup snapshot, one that does not changes
    nothing.  So the view follows the push while the account is
    delegated, and is unchanged while it is not. *)
Theorem handleErChange_view (push : PushedAccount) (w : World State) :
  let after := snd (handleErChange decodePlayer push w) in
  let pushed :=
    match decodePlayer (pushed_data push) with
    | Ok account => Some (snapshot account true)
    | Throw _ => erPlayer (component w)
    end in
  fst (handleErChange decodePlayer push w) = Ok tt /\
  after =
  mkWorld
    (mkState (wallet (component w)) (publicKey (component w))
       (basePlayer (component w)) pushed (isDelegated (component w))
       (baseConnection (component w)) (erConnection (component w)))
    (localStorage w) (trace w) /\
  isDelegated (component after) = isDelegated (component w) /\
  basePlayer (component after) = basePlayer (component w) /\
  erPlayer (component after) = pushed /\
  player (component after) =
    if isDelegated (component w) then pushed else basePlayer (component w).
Proof.
  cbv zeta. rewrite handleErChange_run.
  destruct (decodePlayer (pushed_data push)); simpl.
  - now repeat split.
  - split; [reflexivity|]. split; [now destruct w as [[] ? ?]|]. now repeat split.
Qed.

(** X18. The two handlers write different cells: a primary push and a
    rollup push leave the same state in either order of arrival. *)
Theorem handlers_commute (primary rollup : PushedAccount) (w : World State) :
  (handleBaseChange decodePlayer primary ;; handleErChange decodePlayer rollup) w =
  (handleErChange decodePlayer rollup ;; handleBaseChange decodePlayer primary) w.
Proof.
  unfold bind.
  rewrite (handleBaseChange_run primary w), (handleErChange_run rollup w).
  destruct (decodePlayer (pushed_data primary)) eqn:Hp,
           (decodePlayer (pushed_data rollup)) eqn:Hr;
    rewrite ?handleErChange_run, ?handleBaseChange_run, ?Hp, ?Hr; reflexivity.
Qed.

End Pushes.
End ViewProperties.

(** ** The setup dialog *)

Section DialogProperties.
Import SetupDialog DialogVocabulary.
Context `{P : Platform} {Parent : Type}.
Variable createSessionKey : M Parent (option Keypair).
Variable registerSessionKey : M Parent bool.
Variable fundSessionKey : M Parent bool.
Variable getBalance : string -> M Parent Z.

#[local] Abbreviation handleNext := (handleNext createSessionKey registerSessionKey fundSessionKey).
#[local] Abbreviation perform :=
  (perform createSessionKey registerSessionKey fundSessionKey getBalance).
#[local] Abbreviation performAll :=
  (performAll createSessionKey registerSessionKey fundSessionKey getBalance).
#[local] Abbreviation fetchBalance := (fetchBalance getBalance).
#[local] Abbreviation stepSucceeds := (stepSucceeds createSessionKey registerSessionKey fundSessionKey).

Lemma inParent_run {A} (m : M Parent A) (w : World (Page Parent)) :
  inParent m w =
  (fst (m (parentWorld w)),
   mkWorld (mkPage (dialog (component w)) (component (snd (m (parentWorld w)))))
     (localStorage (snd (m (parentWorld w)))) (trace (snd (m (parentWorld w))))).
Proof.
  unfold inParent, zoom, parentWorld. now destruct (m _).
Qed.

(** What a click on the main button does to the dialog, by the outcome of
    the step's callback. *)
Lemma handleNext_dialog (w : World (Page Parent)) :
  let d := dialog (component w) in
  let d' := dialog (component (snd (handleNext w))) in
  fst (handleNext w) = Ok tt /\
  if stepSucceeds (currentStep d) w then
    match currentStep d with
    | 0 => exists key,
             fst (createSessionKey (parentWorld w)) = Ok (Some key) /\
             d' = mkState 1 (completedSteps d ∪ {[0]}) false None
                    (Some (toBase58 (publicKey key))) (sessionKeyBalance d) (timers d) (calls d)
    | 1 => d' = mkState 2 (completedSteps d ∪ {[1]}) false None
                  (sessionKeyPubkey d) (sessionKeyBalance d) (timers d) (calls d)
    | _ => d' = mkState (currentStep d) (completedSteps d ∪ {[2]}) false None
                  (sessionKeyPubkey d) (sessionKeyBalance d) (timers d ++ [1500]) (calls d)
    end
  else
    exists err,
      d' = mkState (currentStep d) (completedSteps d) false err
             (sessionKeyPubkey d) (sessionKeyBalance d) (timers d) (calls d) /\
      (currentStep d < 3 -> err <> None).
Proof.
  cbv zeta. remember (handleNext w) as run eqn:Hrun.
  unfold SetupDialog.handleNext in Hrun.
  unfold bind at 1 in Hrun. unfold get_state at 1 in Hrun. cbv beta iota zeta in Hrun.
  unfold bind at 1 in Hrun. unfold setLoading at 1, update, modify_state at 1 in Hrun.
  cbv beta iota in Hrun.
  unfold bind at 1 in Hrun. unfold setError at 1, update, modify_state at 1 in Hrun.
  cbv beta iota in Hrun. cbn [component localStorage trace dialog parent] in Hrun.
  unfold try_finally, try_catch in Hrun.
  destruct (currentStep (dialog (component w))) as [|[|[|k]]] eqn:Hstep;
    cbn [Nat.eqb] in Hrun; cbv beta iota in Hrun.
  - unfold bind at 1 in Hrun. rewrite inParent_run in Hrun.
    unfold stepSucceeds, parentWorld in *. cbn [component localStorage trace parent] in Hrun.
    destruct (fst (createSessionKey _)) as [[key|]|e]; simpl in Hrun; subst run; simpl.
    + split; [reflexivity|]. now exists key.
    + split; [reflexivity|]. eexists. split; [reflexivity|]. discriminate.
    + split; [reflexivity|]. eexists. split; [reflexivity|]. discriminate.
  - unfold bind at 1 in Hrun. rewrite inParent_run in Hrun.
    unfold stepSucceeds, parentWorld in *. cbn [component localStorage trace parent] in Hrun.
    destruct (fst (registerSessionKey _)) as [[|]|e]; simpl in Hrun; subst run; simpl.
    + now split.
    + split; [reflexivity|]. eexists. split; [reflexivity|]. discriminate.
    + split; [reflexivity|]. eexists. split; [reflexivity|]. discriminate.
  - unfold bind at 1 in Hrun. rewrite inParent_run in Hrun.
    unfold stepSucceeds, parentWorld in *. cbn [component localStorage trace parent] in Hrun.
    destruct (fst (fundSessionKey _)) as [[|]|e]; simpl in Hrun; subst run; simpl.
    + now split.
    + split; [reflexivity|]. eexists. split; [reflexivity|]. discriminate.
    + split; [reflexivity|]. eexists. split; [reflexivity|]. discriminate.
  - simpl in Hrun. subst run. simpl. split; [reflexivity|].
    eexists. split; [reflexivity|]. lia.
Qed.


(** X19. A click on the main button never throws, and when the callback
    of the current step does not report success (it returns null or
    false, or throws) the dialog stays on its step: nothing is marked
    done, no timer is set, an error text is shown and [loading] is off. *)
Theorem handleNext_failed_step (w : World (Page Parent)) :
  let d := dialog (component w) in
  let d' := dialog (component (snd (handleNext w))) in
  currentStep d < 3 ->
  stepSucceeds (currentStep d) w = false ->
  fst (handleNext w) = Ok tt /\
  currentStep d' = currentStep d /\
  completedSteps d' = completedSteps d /\
  sessionKeyPubkey d' = sessionKeyPubkey d /\
  timers d' = timers d /\
  calls d' = calls d /\
  error d' <> None /\
  loading d' = false.
Proof.
  intros d d' Hstep Hfail.
  pose proof (handleNext_dialog w) as (Hok & Hcases). cbv zeta in Hcases.
  fold d d' in Hcases. rewrite Hfail in Hcases.
  destruct Hcases as (err & -> & Herr). simpl. repeat split; try assumption. now apply Herr.
Qed.

(** X20. When the callback of the current step reports success, that
    step is marked done and the error text is cleared.  Steps 0 and 1
    move on to the next step; step 2 stays current and instead sets the
    timer that completes and closes the dialog. *)
Theorem handleNext_completed_step (w : World (Page Parent)) :
  let d := dialog (component w) in
  let d' := dialog (component (snd (handleNext w))) in
  stepSucceeds (currentStep d) w = true ->
  completedSteps d' = completedSteps d ∪ {[currentStep d]} /\
  currentStep d' = Nat.min (S (currentStep d)) 2 /\
  timers d' = (if Nat.eqb (currentStep d) 2 then timers d ++ [1500] else timers d) /\
  calls d' = calls d /\
  error d' = None /\
  loading d' = false.
Proof.
  intros d d' Hgood.
  pose proof (handleNext_dialog w) as (Hok & Hcases). cbv zeta in Hcases.
  fold d d' in Hcases. rewrite Hgood in Hcases.
  destruct (currentStep d) as [|[|[|k]]] eqn:Hstep.
  - destruct Hcases as (key & _ & ->). now repeat split.
  - rewrite Hcases. now repeat split.
  - rewrite Hcases. now repeat split.
  - discriminate.
Qed.

Lemma handleClose_dialog (w : World (Page Parent)) :
  handleClose w =
  (Ok tt,
   mkWorld
     (mkPage
        (mkState 0 ∅ (loading (dialog (component w))) None None (QArith_base.Qmake 0 1)
           (timers (dialog (component w)))
           (calls (dialog (component w)) ++ [onOpenChange false]))
        (parent (component w)))
     (localStorage w) (trace w)).
Proof. reflexivity. Qed.

Lemma perform_run (a : Action) (w : World (Page Parent)) :
  perform a w =
  if enabled (dialog (component w)) a then
    match a with
    | ClickNext => handleNext w
    | ClickCancel => handleClose w
    | ClickSkip => skipFunding w
    | ClickDone => handleClose w
    | TimerFires i => timerFires i w
    | BalancePoll => fetchBalance w
    end
  else (Ok tt, w).
Proof.
  unfold SetupDialog.perform, bind, get_state. simpl.
  destruct (enabled (dialog (component w)) a); [|reflexivity]. now destruct a.
Qed.

(** A poll never throws and writes no cell of the dialog but the
    balance. *)
Lemma fetchBalance_dialog (w : World (Page Parent)) :
  let d := dialog (component w) in
  fst (fetchBalance w) = Ok tt /\
  exists balance,
    dialog (component (snd (fetchBalance w))) =
    mkState (currentStep d) (completedSteps d) (loading d) (error d)
      (sessionKeyPubkey d) balance (timers d) (calls d).
Proof.
  cbv zeta. unfold SetupDialog.fetchBalance, bind, get_state. cbv beta iota.
  assert (Heta : exists balance,
            dialog (component w) =
            mkState (currentStep (dialog (component w))) (completedSteps (dialog (component w)))
              (loading (dialog (component w))) (error (dialog (component w)))
              (sessionKeyPubkey (dialog (component w))) balance
              (timers (dialog (component w))) (calls (dialog (component w)))).
  { exists (sessionKeyBalance (dialog (component w))). now destruct (dialog (component w)). }
  destruct (sessionKeyPubkey (dialog (component w))) as [address|] eqn:Haddress;
    [|now split].
  destruct (truthy (Some address)); [|now split].
  unfold try_catch. rewrite inParent_run.
  destruct (fst (getBalance address (parentWorld w))) as [balance|e]; simpl.
  - split; [reflexivity|]. rewrite Haddress. now eexists.
  - now split.
Qed.

(** The poll of a shown address: the balance cell takes the ledger's
    answer in SOL, and keeps its value when the ledger does not answer. *)
Lemma fetchBalance_answer (address : string) (w : World (Page Parent)) :
  sessionKeyPubkey (dialog (component w)) = Some address ->
  address <> "" ->
  sessionKeyBalance (dialog (component (snd (fetchBalance w)))) =
  match fst (getBalance address (parentWorld w)) with
  | Ok balance => QArith_base.Qmake balance LAMPORTS_PER_SOL
  | Throw _ => sessionKeyBalance (dialog (component w))
  end.
Proof.
  intros Haddress Hne.
  unfold SetupDialog.fetchBalance, bind, get_state. cbv beta iota. rewrite Haddress.
  assert (Ht : truthy (Some address) = true).
  { simpl. apply negb_true_iff, String.eqb_neq, Hne. }
  rewrite Ht. unfold try_catch. rewrite inParent_run.
  now destruct (fst (getBalance address (parentWorld w))).
Qed.

Lemma performed_orderly (a : Action) (w : World (Page Parent)) :
  orderly (dialog (component w)) ->
  fst (perform a w) = Ok tt /\ orderly (dialog (component (snd (perform a w)))).
Proof.
  intros Hin. pose proof Hin as (Hle & Hload & Hbelow & Habove).
  rewrite perform_run.
  destruct (enabled (dialog (component w)) a) eqn:Hen; [|now split].
  destruct a as [| | | |i|].
  - pose proof (handleNext_dialog w) as (Hok & Hcases). cbv zeta in Hcases.
    split; [exact Hok|].
    destruct (stepSucceeds (currentStep (dialog (component w))) w).
    + destruct (currentStep (dialog (component w))) as [|[|[|k]]] eqn:Hstep; [| | |lia].
      * destruct Hcases as (key & _ & ->). unfold orderly. simpl.
        repeat split; [lia | |].
        -- intros i Hi. assert (i = 0) as -> by lia. set_solver.
        -- intros i Hi. apply elem_of_union in Hi as [Hi|Hi]; [apply Habove in Hi; lia|].
           apply elem_of_singleton in Hi. lia.
      * rewrite Hcases. unfold orderly. simpl. repeat split; [lia | |].
        -- intros i Hi. destruct (decide (i = 1)) as [->|Hne]; [set_solver|].
           apply elem_of_union. left. apply Hbelow. lia.
        -- intros i Hi. apply elem_of_union in Hi as [Hi|Hi]; [apply Habove in Hi; lia|].
           apply elem_of_singleton in Hi. lia.
      * rewrite Hcases. unfold orderly. simpl. repeat split; [lia | |].
        -- intros i Hi. apply elem_of_union. left. now apply Hbelow.
        -- intros i Hi. apply elem_of_union in Hi as [Hi|Hi]; [now apply Habove|].
           apply elem_of_singleton in Hi. lia.
    + destruct Hcases as (err & -> & _). unfold orderly. simpl. now repeat split.
  - rewrite handleClose_dialog. split; [reflexivity|]. unfold orderly. simpl.
    repeat split; [lia | assumption | lia | set_solver].
  - simpl in Hen. apply andb_prop in Hen as [Hen _]. apply andb_prop in Hen as [Hstep _].
    apply Nat.eqb_eq in Hstep.
    split; [reflexivity|]. unfold orderly. simpl. rewrite Hstep. repeat split; [lia | assumption | |].
    + intros i Hi. apply elem_of_union. left. apply Hbelow. lia.
    + intros i Hi. apply elem_of_union in Hi as [Hi|Hi]; [apply Habove in Hi; lia|].
      apply elem_of_singleton in Hi. lia.
  - rewrite handleClose_dialog. split; [reflexivity|]. unfold orderly. simpl.
    repeat split; [lia | assumption | lia | set_solver].
  - split; [reflexivity|]. unfold orderly. simpl.
    repeat split; [lia | assumption | lia | set_solver].
  - destruct (fetchBalance_dialog w) as (Hok & balance & Hd).
    split; [exact Hok|]. rewrite Hd. exact Hin.
Qed.

(** X21. Whatever the callbacks do and the ledger answers to the balance
    polls, and however the buttons are clicked (the button "Skip", which
    a poll brings up, included), the timers fire and the balance is
    polled, each action running to its end before the next begins, a
    dialog that starts in its initial state never throws and stays
    orderly: the current step is 0, 1 or 2, every
    earlier step is marked done, no later step is, and [loading] is off
    between actions.  The step counter never reaches 3, so the button
    "Done" is never shown. *)
Theorem dialog_stays_orderly (actions : list Action) (w : World (Page Parent)) :
  dialog (component w) = initial ->
  let d := dialog (component (snd (performAll actions w))) in
  fst (performAll actions w) = Ok tt /\
  orderly d /\
  enabled d ClickDone = false.
Proof.
  intros Hinit.
  assert (Hstart : orderly (dialog (component w))).
  { rewrite Hinit. unfold orderly. simpl. repeat split; [lia | lia | set_solver]. }
  clear Hinit. cbv zeta.
  assert (Hall : fst (performAll actions w) = Ok tt /\
                 orderly (dialog (component (snd (performAll actions w))))).
  { revert w Hstart. induction actions as [|a rest IH]; intros w Hstart; simpl.
    - now split.
    - unfold bind. destruct (performed_orderly a w Hstart) as (Hok & Hnext).
      destruct (perform a w) as [[[]|e] w1]; simpl in *; [|discriminate].
      now apply IH. }
  destruct Hall as (Hok & Hord). split; [exact Hok|]. split; [exact Hord|].
  destruct Hord as (Hle & _). simpl.
  apply andb_false_iff. left. apply Nat.eqb_neq. lia.
Qed.

(** X22. Closing the dialog does not cancel a pending timer: after
    "Cancel" the timer is still there, and when it fires the dialog
    reports completion to its parent and closes once more. *)
Theorem cancel_keeps_timer (i : nat) (w : World (Page Parent)) :
  let d := dialog (component w) in
  loading d = false ->
  i < length (timers d) ->
  let afterCancel := dialog (component (snd (perform ClickCancel w))) in
  let afterTimer := dialog (component (snd (performAll [ClickCancel; TimerFires i] w))) in
  timers afterCancel = timers d /\
  calls afterCancel = calls d ++ [onOpenChange false] /\
  timers afterTimer = delete i (timers d) /\
  calls afterTimer = calls d ++ [onOpenChange false; onComplete; onOpenChange false].
Proof.
  intros d Hload Hi. subst d. cbv zeta.
  unfold SetupDialog.performAll, SetupDialog.perform, bind, get_state. simpl.
  rewrite Hload. simpl.
  rewrite bool_decide_eq_true_2 by exact Hi. simpl.
  now rewrite <- !app_assoc.
Qed.

End DialogProperties.

(** ** The further properties on concrete runs *)

Section MoreRuns.
Import Fixture Scenario SessionKey.

Lemma aliceCache_deserializes :
  deserialize (P:=platform) (JSON_stringify (secretKey derivedKeypair)) = Ok derivedKeypair.
Proof. vm_compute. reflexivity. Qed.

Lemma restoreSessionKey_from_cache_witness :
  UseSessionKey.sessionKey
    (component (snd (Lifecycle.restoreSessionKey (P:=platform) reloaded)))
  = Some derivedKeypair /\
  trace (snd (Lifecycle.restoreSessionKey (P:=platform) reloaded)) = [].
Proof.
  rewrite (restoreSessionKey_from_cache (P:=platform) reloaded messageWallet alice
             (JSON_stringify (secretKey derivedKeypair)) derivedKeypair
             eq_refl eq_refl eq_refl ltac:(discriminate) aliceCache_deserializes).
  now split.
Defined.

Lemma restoreSessionKey_without_entry_witness :
  Lifecycle.restoreSessionKey (P:=platform) fresh = (Ok tt, fresh).
Proof.
  exact (proj1 (restoreSessionKey_without_entry (P:=platform) fresh messageWallet alice
                  eq_refl eq_refl eq_refl)).
Defined.

Lemma restoreSessionKey_unusable_entry_asks_wallet_witness :
  trace (snd (Lifecycle.restoreSessionKey (P:=platform) reloadedCorrupted))
  = [SignMessage alice (messageBytes (P:=platform))] /\
  UseSessionKey.sessionKey
    (component (snd (Lifecycle.restoreSessionKey (P:=platform) reloadedCorrupted)))
  = Some derivedKeypair.
Proof.
  pose proof (restoreSessionKey_unusable_entry_asks_wallet (P:=platform) reloadedCorrupted
                messageWallet alice "[12,3" eq_refl eq_refl eq_refl
                (or_intror eq_refl)) as H.
  assert (Hd : fst (deriveSessionKey (P:=platform) messageWallet reloadedCorrupted)
               = Ok derivedKeypair) by (vm_compute; reflexivity).
  rewrite Hd in H. rewrite H. now split.
Defined.

(** With no wallet connected [createSessionKey] only reports it: a
    [loading] flag that was on stays on. *)
Example createSessionKey_disconnected :
  let w := mkWorld (UseSessionKey.mkState None None None None false true false) aliceCache [] in
  UseSessionKey.createSessionKey (P:=platform) w =
  (Ok None,
   mkWorld (UseSessionKey.mkState None None None None false true false) aliceCache
     [Toast toast_error "Wallet not connected"]).
Proof. reflexivity. Qed.

Example createSessionKey_connected :
  fst (UseSessionKey.createSessionKey (P:=platform) fresh) = Ok (Some derivedKeypair) /\
  UseSessionKey.loading (component (snd (UseSessionKey.createSessionKey (P:=platform) fresh)))
  = false.
Proof. split; vm_compute; reflexivity. Qed.

Lemma checkRegistration_absent_account_witness :
  let net := ledgers None (Ok "tx") in
  UseSessionKey.isDelegated
    (component (snd (Lifecycle.checkRegistration (P:=platform) net fresh))) = true /\
  fst (UseSessionKey.getCurrentDelegationStatus (P:=platform) net fresh) = Ok false.
Proof.
  intros net.
  destruct (checkRegistration_absent_account (P:=platform) net fresh messageWallet alice
              eq_refl eq_refl eq_refl) as (_ & Hflag & Hlive).
  split; [exact Hflag | exact Hlive].
Defined.

(** A delegated account is looked up on the rollup; a disconnected hook
    asks nothing and drops both flags. *)
Example checkRegistration_delegated :
  let net := ledgers (Some delegationProgram) (Ok "tx") in
  let after := snd (Lifecycle.checkRegistration (P:=platform) net fresh) in
  UseSessionKey.isDelegated (component after) = true /\
  UseSessionKey.isRegistered (component after) = false /\
  trace after = [GetAccountInfo Devnet (getPlayerPda (P:=platform) alice);
                 FetchPlayer EphemeralRollup (getPlayerPda (P:=platform) alice)].
Proof. cbv zeta. repeat split; vm_compute; reflexivity. Qed.

Example checkRegistration_disconnected :
  let net := ledgers (Some delegationProgram) (Ok "tx") in
  let w := mkWorld (UseSessionKey.mkState None None None None true true true) aliceCache [] in
  Lifecycle.checkRegistration (P:=platform) net w =
  (Ok tt, mkWorld (UseSessionKey.mkState None None None None false true false) aliceCache []).
Proof. reflexivity. Qed.

Lemma clearSessionOnUndelegate_then_restore_witness :
  let gone := snd (UseSessionKey.clearSessionOnUndelegate (P:=platform) active) in
  HookVocabulary.cleared (P:=platform) alice gone /\
  Lifecycle.restoreSessionKey (P:=platform) gone = (Ok tt, gone).
Proof.
  intros gone.
  destruct (clearSessionOnUndelegate_then_restore (P:=platform) active messageWallet alice
              eq_refl eq_refl) as (H1 & _ & _ & H4).
  split; [exact H1 | exact H4].
Defined.

Lemma cache_entries_per_identity_witness :
  alice <> bob /\
  fst (loadCached (P:=platform) bob (snd (clearSessionKey (P:=platform) alice used)))
  = fst (loadCached (P:=platform) bob used) /\
  fst (hasSessionKey (P:=platform) alice (snd (clearSessionKey (P:=platform) bob used)))
  = Ok true.
Proof.
  assert (Hne : alice <> bob) by (vm_compute; discriminate).
  split; [exact Hne|]. split.
  - exact (proj1 (proj2 (cache_entries_per_identity (P:=platform) alice bob derivedKeypair used
                           render_key_inj Hne))).
  - rewrite (proj2 (proj2 (proj2 (cache_entries_per_identity (P:=platform) bob alice
                                    derivedKeypair used render_key_inj
                                    (fun H => Hne (eq_sym H)))))).
    vm_compute. reflexivity.
Defined.

Lemma initializeSession_derives_once_witness :
  let net := ledgers (Some delegationProgram) (Ok "tx") in
  let created := Toast toast_success "Session key created" in
  exists kind title,
    trace (snd (Lifecycle.initializeSession (P:=platform) net fresh)) =
    [SignMessage alice (messageBytes (P:=platform)); created; created;
     GetAccountInfo Devnet (getPlayerPda (P:=platform) alice);
     Rpc EphemeralRollup alice (registerSessionKey_call (publicKey derivedKeypair));
     Toast kind title].
Proof.
  intros net created.
  assert (Hd : fst (deriveSessionKey (P:=platform) messageWallet fresh) = Ok derivedKeypair)
    by (vm_compute; reflexivity).
  exact (initializeSession_derives_once (P:=platform) net fresh messageWallet alice derivedKeypair
           eq_refl eq_refl eq_refl eq_refl Hd aliceCache_deserializes).
Defined.

Lemma fetchPlayerData_snapshots_witness :
  let net := ledgers (Some delegationProgram) (Ok "tx") in
  let after := component (snd (GameBoard.fetchPlayerData (P:=platform) net board)) in
  GameBoard.basePlayer after = Some (GameBoard.PlayerData.mk 5 5 "alice" None (Some false)) /\
  GameBoard.erPlayer after = Some (GameBoard.PlayerData.mk 7 7 "alice" None (Some true)).
Proof.
  intros net after.
  exact (fetchPlayerData_snapshots (P:=platform) net board messageWallet alice Devnet
           EphemeralRollup (mkAccountInfo delegationProgram 1000)
           eq_refl eq_refl eq_refl eq_refl eq_refl eq_refl).
Defined.

Lemma fetchPlayerData_read_error_witness :
  let after := snd (GameBoard.fetchPlayerData (P:=platform) (unreachable (Ok "tx")) board) in
  GameBoard.player (component after) = None /\
  added board after = [GetAccountInfo Devnet (getPlayerPda (P:=platform) alice)].
Proof.
  intros after.
  destruct (fetchPlayerData_read_error (P:=platform) (unreachable (Ok "tx")) board
              messageWallet alice Devnet (Error "failed to fetch")
              eq_refl eq_refl eq_refl eq_refl) as (_ & _ & _ & Hview & Hnew).
  split; [exact Hview | exact Hnew].
Defined.

(** A rollup push while the board is not delegated fills the rollup
    snapshot and leaves the view; on a delegated board the view follows
    it and the flag stays on. *)
Example handleErChange_not_delegated :
  let after := component (snd (Subscriptions.handleErChange (P:=platform) decodePosition
                                 rollupPush board)) in
  GameBoard.player after = GameBoard.player (component board) /\
  GameBoard.erPlayer after = Some (GameBoard.PlayerData.mk 7 7 "alice" None (Some true)).
Proof. split; vm_compute; reflexivity. Qed.

Example handleErChange_delegated :
  let delegated :=
    mkWorld
      (GameBoard.mkState (Some messageWallet) (Some alice)
         (Some (GameBoard.PlayerData.mk 5 5 "alice" None (Some false))) None true
         (Some Devnet) (Some EphemeralRollup)) ∅ [] in
  let after := component (snd (Subscriptions.handleErChange (P:=platform) decodePosition
                                 rollupPush delegated)) in
  GameBoard.isDelegated after = true /\
  GameBoard.basePlayer after = Some (GameBoard.PlayerData.mk 5 5 "alice" None (Some false)) /\
  GameBoard.player after = Some (GameBoard.PlayerData.mk 7 7 "alice" None (Some true)).
Proof. repeat split; vm_compute; reflexivity. Qed.

(** A primary push that shows another program as owner still replaces the
    primary snapshot. *)
Example handleBaseChange_delegated :
  let after := component (snd (Subscriptions.handleBaseChange (P:=platform) decodePosition
                                 rollupPush board)) in
  GameBoard.isDelegated after = true /\
  GameBoard.basePlayer after = Some (GameBoard.PlayerData.mk 7 7 "alice" None (Some false)) /\
  GameBoard.player after = None.
Proof. repeat split; vm_compute; reflexivity. Qed.

Lemma handleNext_failed_step_witness :
  let d' := SetupDialog.dialog
              (component (snd (SetupDialog.handleNext (P:=platform) keyRefused accepted
                                 accepted opened))) in
  SetupDialog.currentStep d' = 0 /\ SetupDialog.error d' <> None.
Proof.
  intros d'.
  destruct (handleNext_failed_step (P:=platform) keyRefused accepted accepted opened
              ltac:(simpl; lia) eq_refl) as (_ & Hstep & _ & _ & _ & _ & Herr & _).
  split; [exact Hstep | exact Herr].
Defined.

Lemma handleNext_completed_step_witness :
  let d' := SetupDialog.dialog
              (component (snd (SetupDialog.handleNext (P:=platform) keyGiven accepted
                                 accepted opened))) in
  SetupDialog.completedSteps d' = ∅ ∪ {[0]} /\ SetupDialog.currentStep d' = 1.
Proof.
  intros d'.
  destruct (handleNext_completed_step (P:=platform) keyGiven accepted accepted opened
              eq_refl) as (Hdone & Hstep & _).
  split; [exact Hdone | exact Hstep].
Defined.

(** A run through the button "Skip": once the key is made and registered
    and a poll has shown 0.02 SOL, the button is there, and the click
    marks the last step done and sets the short timer without calling
    [fundSessionKey]. *)
Example skip_after_poll :
  let actions := [SetupDialog.ClickNext; SetupDialog.ClickNext; SetupDialog.BalancePoll] in
  let polled := snd (SetupDialog.performAll (P:=platform) keyGiven accepted failing funded
                       actions opened) in
  let skipped := snd (SetupDialog.perform (P:=platform) keyGiven accepted failing funded
                        SetupDialog.ClickSkip polled) in
  SetupDialog.enabled (SetupDialog.dialog (component opened)) SetupDialog.ClickSkip = false /\
  SetupDialog.enabled (SetupDialog.dialog (component polled)) SetupDialog.ClickSkip = true /\
  SetupDialog.currentStep (SetupDialog.dialog (component skipped)) = 2 /\
  SetupDialog.timers (SetupDialog.dialog (component skipped)) = [500] /\
  SetupDialog.error (SetupDialog.dialog (component skipped)) = None.
Proof. cbv zeta. repeat split; vm_compute; reflexivity. Qed.

Lemma dialog_stays_orderly_witness :
  let actions := [SetupDialog.ClickNext; SetupDialog.ClickNext; SetupDialog.BalancePoll;
                  SetupDialog.ClickSkip; SetupDialog.ClickDone; SetupDialog.ClickNext;
                  SetupDialog.TimerFires 0; SetupDialog.ClickNext] in
  DialogVocabulary.orderly
    (SetupDialog.dialog
       (component (snd (SetupDialog.performAll (P:=platform) keyGiven accepted failing funded
                          actions opened)))).
Proof.
  intros actions.
  exact (proj1 (proj2 (dialog_stays_orderly (P:=platform) keyGiven accepted failing funded
                         actions opened eq_refl))).
Defined.

Lemma cancel_keeps_timer_witness :
  SetupDialog.calls
    (SetupDialog.dialog
       (component (snd (SetupDialog.performAll (P:=platform) keyGiven accepted accepted silent
                          [SetupDialog.ClickCancel; SetupDialog.TimerFires 0] skipping))))
  = [SetupDialog.onOpenChange false; SetupDialog.onComplete; SetupDialog.onOpenChange false].
Proof.
  exact (proj2 (proj2 (proj2 (cancel_keeps_timer (P:=platform) keyGiven accepted accepted silent
                                0 skipping eq_refl ltac:(simpl; lia))))).
Defined.

Lemma registerSessionKey_flags_witness :
  let rejected := ledgers (Some delegationProgram) (Throw (Error "Transaction simulation failed")) in
  fst (UseSessionKey.registerSessionKey (P:=platform) rejected active) = Ok false /\
  UseSessionKey.sessionKey
    (component (snd (UseSessionKey.registerSessionKey (P:=platform) rejected active)))
  = Some derivedKeypair.
Proof.
  intros rejected.
  destruct (registerSessionKey_flags (P:=platform) rejected active messageWallet alice
              derivedKeypair eq_refl eq_refl eq_refl) as (_ & (_ & Hkey & _) & Hcase).
  split; [exact (proj1 Hcase) | exact Hkey].
Defined.

End MoreRuns.
